(** * The Bookmarks launchers and the QtGui binding indices

    A shallow embedding of

    - [build-scripts/win/bin/bookmarks.cpp]: the Windows launcher
      ([WstrToUtf8Str] and [main]),
    - [build-scripts/osx/bin.cpp]: the macOS launcher ([main]),
    - [modules/PySide2/include/PySide2/QtGui/pyside2_qtgui_python.h]: the
      type and converter index constants of the generated QtGui binding.

    The launchers are sequences of calls into the operating system, the C
    runtime and the Python C API.  A run is modelled in a small monad that
    threads the process state (environment block, the global [info], the
    log of the external calls made so far) and ends a computation early on
    [exit], on a C++ [throw], or inside an interpreter call that does not
    come back.  What the outside world answers to a call is read from a
    record of oracles, [World]. *)

From Stdlib Require Import ZArith List String Ascii Lia.
From stdpp Require Import base gmap strings list.

Open Scope Z_scope.

(** ** Character data *)

(** A [wchar_t] (UTF-16 code unit) and a [char] are integers; a
    [std::wstring] and a [std::string] are lists of them. *)
Definition code_of (a : ascii) : Z := Z.of_N (N_of_ascii a).

(** The literal [L"..."]. *)
Definition wide (s : string) : list Z := code_of <$> list_ascii_of_string s.

(** The literal ["..."]. *)
Definition narrow (s : string) : list Z := code_of <$> list_ascii_of_string s.

(** Reading a NUL-terminated array ([c_str()] handed to an API that takes
    [-1] as the length, [std::wstring(const wchar_t* )],
    [std::string = const char* ]): everything before the first NUL.  An
    array without NUL is read to its end; the C++ code would read past
    it. *)
Fixpoint c_str (l : list Z) : list Z :=
  match l with
  | [] => []
  | c :: rest => if c =? 0 then [] else c :: c_str rest
  end.

Definition len (l : list Z) : Z := Z.of_nat (length l).

(** No NUL among the characters. *)
Definition nul_free (l : list Z) : bool := forallb (λ c, negb (c =? 0)) l.

(** ** UTF-16 to UTF-8, as [WideCharToMultiByte(CP_UTF8, 0, ...)] converts

    This is the conversion of the Win32 API the launcher calls, written
    after its documentation: a surrogate pair is one code point, a surrogate
    on its own becomes U+FFFD. *)
Module Utf8.

Definition is_high_surrogate (u : Z) : bool := (0xD800 <=? u) && (u <=? 0xDBFF).
Definition is_low_surrogate (u : Z) : bool := (0xDC00 <=? u) && (u <=? 0xDFFF).

Definition continuation (x : Z) : Z := Z.lor 0x80 (Z.land x 0x3F).

Definition encode_code_point (c : Z) : list Z :=
  if c <? 0x80 then [c]
  else if c <? 0x800 then
    [Z.lor 0xC0 (Z.shiftr c 6); continuation c]
  else if c <? 0x10000 then
    [Z.lor 0xE0 (Z.shiftr c 12); continuation (Z.shiftr c 6); continuation c]
  else
    [Z.lor 0xF0 (Z.shiftr c 18); continuation (Z.shiftr c 12);
     continuation (Z.shiftr c 6); continuation c].

Definition replacement_character : Z := 0xFFFD.

Definition pair_code_point (hi lo : Z) : Z :=
  0x10000 + (hi - 0xD800) * 0x400 + (lo - 0xDC00).

Fixpoint encode (s : list Z) : list Z :=
  match s with
  | [] => []
  | u :: rest =>
      if is_high_surrogate u then
        match rest with
        | lo :: rest' =>
            if is_low_surrogate lo
            then encode_code_point (pair_code_point u lo) ++ encode rest'
            else encode_code_point replacement_character ++ encode rest
        | [] => encode_code_point replacement_character
        end
      else if is_low_surrogate u then
        encode_code_point replacement_character ++ encode rest
      else encode_code_point u ++ encode rest
  end.

End Utf8.

(** ** External calls, process state and the run monad *)

(** One constructor per external function the launchers call, with the
    arguments that matter.  [EvPy_Initialize] records the environment block
    the interpreter finds when it starts inside the process. *)
Inductive event : Type :=
  | EvGetModuleFileNameW (nSize : Z)
  | EvPathRemoveFileSpecW (pszPath : list Z)
  | Ev_wstat (path : list Z)
  | Ev_wgetenv_s (numberOfElements : Z) (varname : list Z)
  | Ev_malloc (size : Z)
  | Ev_wputenv_s (varname value_string : list Z)
  | EvMessageBox (lpText lpCaption : string) (uType : Z)
  | EvCFUserNotificationDisplayAlert (alertHeader alertMessage defaultButtonTitle : string)
  | EvPy_SetProgramName (name : list Z)
  | EvPyEval_InitThreads
  | EvPy_Initialize (inherited : gmap (list Z) (list Z))
  | EvPySys_SetArgv (argc : Z) (argv : list (list Z))
  | EvWideCharToMultiByte (lpWideCharStr : list Z) (cbMultiByte : Z)
  | EvPyRun_SimpleString (command : list Z)
  | EvPy_Finalize.

(** The part of the process the launchers read and write: the environment
    block, the [st_mode] of the global [struct _stat64i32 info], and the log
    of external calls, oldest first. *)
Record process : Type := Process {
  environ : gmap (list Z) (list Z);
  info_st_mode : Z;
  trace : list event
}.

Inductive exception : Type :=
  | runtime_error.

(** How a computation ends: it returns a value, the process ends through
    [exit(status)], a C++ exception propagates, or control stays in an
    external call for good. *)
Inductive result (A : Type) : Type :=
  | Ret (a : A)
  | Exit (status : Z)
  | Throw (e : exception)
  | Diverges.
Arguments Ret {A} a.
Arguments Exit {A} status.
Arguments Throw {A} e.
Arguments Diverges {A}.

Definition Run (A : Type) : Type := process → result A * process.

#[global] Instance Run_ret : MRet Run := λ A a p, (Ret a, p).

#[global] Instance Run_bind : MBind Run := λ A B f m p,
  match m p with
  | (Ret a, p') => f a p'
  | (Exit status, p') => (Exit status, p')
  | (Throw e, p') => (Throw e, p')
  | (Diverges, p') => (Diverges, p')
  end.

Definition call (e : event) : Run unit :=
  λ p, (Ret tt, Process (environ p) (info_st_mode p) (trace p ++ [e])).

Definition exit {A : Type} (status : Z) : Run A := λ p, (Exit status, p).

Definition throw {A : Type} (e : exception) : Run A := λ p, (Throw e, p).

Definition diverge {A : Type} : Run A := λ p, (Diverges, p).

Definition get_environ : Run (gmap (list Z) (list Z)) := λ p, (Ret (environ p), p).

Definition set_environ (env : gmap (list Z) (list Z)) : Run unit :=
  λ p, (Ret tt, Process env (info_st_mode p) (trace p)).

Definition get_info_st_mode : Run Z := λ p, (Ret (info_st_mode p), p).

Definition set_info_st_mode (st_mode : Z) : Run unit :=
  λ p, (Ret tt, Process (environ p) st_mode (trace p)).

(** The command line the interpreter holds: what the last [PySys_SetArgv] of
    the log gave it, [given] when there was none. *)
Fixpoint sys_argv (t : list event) (given : Z * list (list Z)) : Z * list (list Z) :=
  match t with
  | [] => given
  | EvPySys_SetArgv argc argv :: t' => sys_argv t' (argc, argv)
  | _ :: t' => sys_argv t' given
  end.

Definition get_sys_argv : Run (Z * list (list Z)) :=
  λ p, (Ret (sys_argv (trace p) (0, [])), p).

(** [if (c) { body }] with no [else]. *)
Definition when (c : bool) (body : Run unit) : Run unit :=
  if c then body else mret tt.

(** How a call of [PyRun_SimpleString] ends, after the documentation of the
    Python C API: it returns 0 when the command ran to its end and -1 when
    the command raised an exception; but when the exception is [SystemExit]
    ([exit(n)], [sys.exit(n)]) it does not return: the interpreter finalizes
    itself and ends the process with [exit(n)].  And the command, which is
    a program, need not come to an end.  The interpreter runs inside the
    process; what its command writes to the environment is not tracked:
    [environ] is the environment as the calls of the launcher leave it. *)
Inductive py_outcome : Type :=
  | PyReturns (res : Z)
  | PyExits (status : Z)
  | PyRunsOn.

(** The answers of the outside world.  Each field is the return value (and
    output buffer) of the function it is named after:
    - [w_GetModuleFileNameW nSize]: the length copied (0 on failure) and
      the buffer;
    - [w_PathRemoveFileSpecW path]: nonzero when something was removed, and
      the path afterwards;
    - [w_wstat path]: [None] when [_wstat] fails (nonzero return),
      [Some st_mode] when it fills [info];
    - [w_malloc size]: whether the pointer returned is non-null;
    - [w_WideCharToMultiByte src cbMultiByte], for code page [CP_UTF8],
      flags 0, source length -1: the return value and the bytes written to
      the output buffer ([cbMultiByte = 0] is the size query, which writes
      nothing);
    - [w_PyRun_SimpleString environment argc argv command]: what the
      interpreter, running in the process with this environment and holding
      this command line, does with the command (see [py_outcome]). *)
Record World : Type := {
  w_GetModuleFileNameW : Z → Z * list Z;
  w_PathRemoveFileSpecW : list Z → Z * list Z;
  w_wstat : list Z → option Z;
  w_malloc : Z → bool;
  w_WideCharToMultiByte : list Z → Z → Z * list Z;
  w_PyRun_SimpleString :
    gmap (list Z) (list Z) → Z → list (list Z) → list Z → py_outcome
}.

(** ** The external functions, as computations *)

Definition MAX_PATH : Z := 260.
Definition MB_OK : Z := 0x0.
Definition MB_ICONERROR : Z := 0x10.
Definition S_IFDIR : Z := 0x4000.

Definition GetModuleFileNameW (w : World) (nSize : Z) : Run (Z * list Z) :=
  call (EvGetModuleFileNameW nSize) ;; mret (w_GetModuleFileNameW w nSize).

Definition PathRemoveFileSpecW (w : World) (pszPath : list Z) : Run (Z * list Z) :=
  call (EvPathRemoveFileSpecW pszPath) ;; mret (w_PathRemoveFileSpecW w pszPath).

(** [_wstat(path, &info)]: 0 and [info] filled, or -1 and [info] untouched. *)
Definition _wstat (w : World) (path : list Z) : Run Z :=
  call (Ev_wstat path) ;;
  match w_wstat w path with
  | Some st_mode => set_info_st_mode st_mode ;; mret 0
  | None => mret (-1)
  end.

(** [_wgetenv_s(&size, buffer, numberOfElements, varname)]: the size is the
    length of the value plus its terminator, or 0 when the variable is not
    set; the value is copied when the buffer holds it.  Names are compared
    as written. *)
Definition _wgetenv_s (numberOfElements : Z) (varname : list Z) : Run (Z * list Z) :=
  call (Ev_wgetenv_s numberOfElements varname) ;;
  env ← get_environ;
  match env !! varname with
  | None => mret (0, [])
  | Some value =>
      mret (len value + 1,
            if len value + 1 <=? numberOfElements then value else [])
  end.

Definition malloc (w : World) (size : Z) : Run bool :=
  call (Ev_malloc size) ;; mret (w_malloc w size).

(** [errno_t _wputenv_s(const wchar_t *varname, const wchar_t *value_string)]:
    the FIRST argument is the name of the variable, the SECOND its new
    value; an empty value removes the variable. *)
Definition put_variable (varname value_string : list Z)
    (env : gmap (list Z) (list Z)) : gmap (list Z) (list Z) :=
  match value_string with
  | [] => delete varname env
  | _ :: _ => <[varname := value_string]> env
  end.

Definition _wputenv_s (varname value_string : list Z) : Run Z :=
  call (Ev_wputenv_s varname value_string) ;;
  env ← get_environ;
  set_environ (put_variable varname value_string env) ;;
  mret 0.

Definition MessageBox (lpText lpCaption : string) (uType : Z) : Run Z :=
  call (EvMessageBox lpText lpCaption uType) ;; mret 1.

Definition CFUserNotificationDisplayAlert
    (alertHeader alertMessage defaultButtonTitle : string) : Run Z :=
  call (EvCFUserNotificationDisplayAlert alertHeader alertMessage defaultButtonTitle) ;;
  mret 0.

(** Writing [written] at the start of [buffer]. *)
Definition store (written buffer : list Z) : list Z :=
  take (length buffer) written ++ drop (length written) buffer.

(** [WideCharToMultiByte(CP_UTF8, 0, src, -1, buffer, cbMultiByte, NULL,
    NULL)]: the return value and the buffer afterwards. *)
Definition WideCharToMultiByte (w : World) (src buffer : list Z) (cbMultiByte : Z)
    : Run (Z * list Z) :=
  call (EvWideCharToMultiByte src cbMultiByte) ;;
  mret (fst (w_WideCharToMultiByte w src cbMultiByte),
        store (snd (w_WideCharToMultiByte w src cbMultiByte)) buffer).

Definition Py_SetProgramName (name : list Z) : Run unit :=
  call (EvPy_SetProgramName name).

Definition PyEval_InitThreads : Run unit := call EvPyEval_InitThreads.

(** The interpreter starts inside the process and finds its environment. *)
Definition Py_Initialize : Run unit :=
  env ← get_environ; call (EvPy_Initialize env).

Definition PySys_SetArgv (argc : Z) (argv : list (list Z)) : Run unit :=
  call (EvPySys_SetArgv argc argv).

Definition PyRun_SimpleString (w : World) (command : list Z) : Run Z :=
  call (EvPyRun_SimpleString command) ;;
  env ← get_environ;
  given ← get_sys_argv;
  match w_PyRun_SimpleString w env (fst given) (snd given) command with
  | PyReturns res => mret res
  | PyExits status => exit status
  | PyRunsOn => diverge
  end.

Definition Py_Finalize : Run unit := call EvPy_Finalize.

(** ** build-scripts/win/bin/bookmarks.cpp *)
Module Win.

Definition empty (wstr : list Z) : bool :=
  match wstr with [] => true | _ :: _ => false end.

Definition WstrToUtf8Str (w : World) (wstr : list Z) : Run (list Z) :=
  let retStr := [] in
  if negb (empty wstr) then
    '(sizeRequired, _) ← WideCharToMultiByte w (c_str wstr) [] 0;
    if 0 <? sizeRequired then
      let utf8String := replicate (Z.to_nat sizeRequired) 0 in
      '(bytesConverted, utf8String) ←
        WideCharToMultiByte w (c_str wstr) utf8String (len utf8String);
      if negb (bytesConverted =? 0) then mret (c_str utf8String)
      else throw runtime_error
    else mret retStr
  else mret retStr.

(** The command assembled at lines 151-156; the backslash-newline pairs of
    the literal are line splices and leave no character behind. *)
Definition wcmd (modified_path path : list Z) : list Z :=
  wide "import os;import sys;os.environ['PATH'] = r'" ++ modified_path ++
  wide "';sys.path.insert(0, r'" ++ c_str path ++ wide "\shared" ++
  wide "');import bookmarks; bookmarks.exec_();".

Definition main (w : World) (argc : Z) (argv : list (list Z)) : Run Z :=
  '(copied, path) ← GetModuleFileNameW w MAX_PATH;
  when (copied =? 0)
    (MessageBox "Could not start the application:
GetModuleFileNameW returned a bogus value." "Error" MB_OK ;;
     exit 1) ;;
  '(removed, path) ← PathRemoveFileSpecW w path;
  when (removed =? 0)
    (MessageBox "Could not start the application:
PathRemoveFileSpecW returned a bogus value." "Error" MB_OK ;;
     exit 1) ;;
  let bin_dir := c_str path ++ wide "\bin" in
  missing ← _wstat w (c_str bin_dir);
  when (negb (missing =? 0))
    (MessageBox "Could not start the application:
The 'bin' directory seems to be missing." "Error" (Z.lor MB_ICONERROR MB_OK) ;;
     exit 1) ;;
  st_mode ← get_info_st_mode;
  when (Z.land st_mode S_IFDIR =? 0)
    (MessageBox "Could not start the application:
The 'bin' is not a valid directory." "Error" (Z.lor MB_ICONERROR MB_OK) ;;
     exit 1) ;;
  '(envsize, _) ← _wgetenv_s 0 (wide "PATH");
  when (envsize =? 0)
    (MessageBox "Could not start the application.
Could not get the PATH environment." "Error" MB_OK ;;
     exit 1) ;;
  allocated ← malloc w (envsize * 2);
  when (negb allocated)
    (MessageBox "Could not start the application.
Could not allocate memory." "Error" MB_OK ;;
     exit 1) ;;
  '(_, pathvar) ← _wgetenv_s envsize (wide "PATH");
  let modified_path := bin_dir ++ wide ";" ++ c_str pathvar in
  _wputenv_s (c_str modified_path) (wide "PATH") ;;
  let pydll := c_str path ++ wide "\python27.dll" in
  missing ← _wstat w (c_str pydll);
  when (negb (missing =? 0))
    (MessageBox "Could not start the application:
The 'python27.dll' seems to be missing." "Error" (Z.lor MB_ICONERROR MB_OK) ;;
     exit 1) ;;
  let pythonpath := c_str path ++ wide "\shared" in
  _wputenv_s (c_str pythonpath) (wide "PYTHONPATH") ;;
  Py_SetProgramName (nth 0 argv []) ;;
  PyEval_InitThreads ;;
  Py_Initialize ;;
  PySys_SetArgv argc argv ;;
  cmd ← WstrToUtf8Str w (wcmd modified_path path);
  res ← PyRun_SimpleString w (c_str cmd);
  if res =? -1 then
    Py_Finalize ;;
    MessageBox "Could not start the application.
An internal Python error occured." "Error" MB_OK ;;
    exit 1
  else
    Py_Finalize ;;
    exit 0.

End Win.

(** ** build-scripts/osx/bin.cpp *)
Module Osx.

Definition cmd : list Z := narrow "import bookmarks; bookmarks.exec_(); exit(0);".

Definition main (w : World) (argc : Z) (argv : list (list Z)) : Run Z :=
  Py_SetProgramName (nth 0 argv []) ;;
  PyEval_InitThreads ;;
  Py_Initialize ;;
  PySys_SetArgv argc argv ;;
  res ← PyRun_SimpleString w (c_str cmd);
  when (res =? -1)
    (Py_Finalize ;;
     CFUserNotificationDisplayAlert "Error" "Could not start the application.
An internal Python error occured." "OK" ;;
     exit 1) ;;
  Py_Finalize ;;
  exit 0.

End Osx.

(** ** modules/PySide2/include/PySide2/QtGui/pyside2_qtgui_python.h *)
Module QtGui.

(** The [#define]s of the block "Type indices" (lines 160-456), in the
    order of the header, each with its name. *)
Definition type_indices : list (string * Z) :=
  [("SBK_QMATRIX4X3_IDX", 113); ("SBK_QMATRIX4X2_IDX", 112);
   ("SBK_QMATRIX3X4_IDX", 111); ("SBK_QMATRIX3X3_IDX", 110);
   ("SBK_QMATRIX3X2_IDX", 109); ("SBK_QMATRIX2X4_IDX", 108);
   ("SBK_QMATRIX2X3_IDX", 107); ("SBK_QMATRIX2X2_IDX", 106);
   ("SBK_QDESKTOPSERVICES_IDX", 27); ("SBK_QTEXTTABLECELL_IDX", 270);
   ("SBK_QTEXTFRAGMENT_IDX", 241); ("SBK_QTEXTBLOCK_IDX", 216);
   ("SBK_QTEXTBLOCK_ITERATOR_IDX", 217); ("SBK_QTEXTBLOCKUSERDATA_IDX", 220);
   ("SBK_QTEXTOBJECTINTERFACE_IDX", 263); ("SBK_QTEXTLINE_IDX", 256);
   ("SBK_QTEXTLINE_EDGE_IDX", 258); ("SBK_QTEXTLINE_CURSORPOSITION_IDX", 257);
   ("SBK_QTEXTINLINEOBJECT_IDX", 248); ("SBK_QTEXTCURSOR_IDX", 225);
   ("SBK_QTEXTCURSOR_MOVEMODE_IDX", 226); ("SBK_QTEXTCURSOR_MOVEOPERATION_IDX", 227);
   ("SBK_QTEXTCURSOR_SELECTIONTYPE_IDX", 228); ("SBK_QFONTDATABASE_IDX", 62);
   ("SBK_QFONTDATABASE_WRITINGSYSTEM_IDX", 64);
   ("SBK_QFONTDATABASE_SYSTEMFONT_IDX", 63); ("SBK_QTEXTFORMAT_IDX", 236);
   ("SBK_QTEXTFORMAT_FORMATTYPE_IDX", 237); ("SBK_QTEXTFORMAT_PROPERTY_IDX", 240);
   ("SBK_QTEXTFORMAT_OBJECTTYPES_IDX", 238);
   ("SBK_QTEXTFORMAT_PAGEBREAKFLAG_IDX", 239);
   ("SBK_QFLAGS_QTEXTFORMAT_PAGEBREAKFLAG__IDX", 48); ("SBK_QTEXTLISTFORMAT_IDX", 260);
   ("SBK_QTEXTLISTFORMAT_STYLE_IDX", 261); ("SBK_QTEXTBLOCKFORMAT_IDX", 218);
   ("SBK_QTEXTBLOCKFORMAT_LINEHEIGHTTYPES_IDX", 294);
   ("SBK_QTEXTFRAMEFORMAT_IDX", 244); ("SBK_QTEXTFRAMEFORMAT_POSITION_IDX", 246);
   ("SBK_QTEXTFRAMEFORMAT_BORDERSTYLE_IDX", 245); ("SBK_QTEXTTABLEFORMAT_IDX", 272);
   ("SBK_QTEXTLENGTH_IDX", 254); ("SBK_QTEXTLENGTH_TYPE_IDX", 255);
   ("SBK_QPAINTENGINESTATE_IDX", 150); ("SBK_QPAINTENGINE_IDX", 145);
   ("SBK_QPAINTENGINE_PAINTENGINEFEATURE_IDX", 147);
   ("SBK_QFLAGS_QPAINTENGINE_PAINTENGINEFEATURE__IDX", 42);
   ("SBK_QPAINTENGINE_DIRTYFLAG_IDX", 146);
   ("SBK_QFLAGS_QPAINTENGINE_DIRTYFLAG__IDX", 41);
   ("SBK_QPAINTENGINE_POLYGONDRAWMODE_IDX", 148); ("SBK_QPAINTENGINE_TYPE_IDX", 149);
   ("SBK_QTEXTITEM_IDX", 249); ("SBK_QTEXTITEM_RENDERFLAG_IDX", 250);
   ("SBK_QFLAGS_QTEXTITEM_RENDERFLAG__IDX", 49); ("SBK_QFONTMETRICSF_IDX", 67);
   ("SBK_QFONTMETRICS_IDX", 66); ("SBK_QFONTINFO_IDX", 65); ("SBK_QPEN_IDX", 165);
   ("SBK_QTEXTOPTION_IDX", 264); ("SBK_QTEXTOPTION_TABTYPE_IDX", 267);
   ("SBK_QTEXTOPTION_WRAPMODE_IDX", 268); ("SBK_QTEXTOPTION_FLAG_IDX", 265);
   ("SBK_QFLAGS_QTEXTOPTION_FLAG__IDX", 50); ("SBK_QTEXTOPTION_TAB_IDX", 266);
   ("SBK_QPAGESIZE_IDX", 135); ("SBK_QPAGESIZE_PAGESIZEID_IDX", 136);
   ("SBK_QPAGESIZE_UNIT_IDX", 138); ("SBK_QPAGESIZE_SIZEMATCHPOLICY_IDX", 137);
   ("SBK_QOPENGLFRAMEBUFFEROBJECT_IDX", 127);
   ("SBK_QOPENGLFRAMEBUFFEROBJECT_ATTACHMENT_IDX", 128);
   ("SBK_QOPENGLBUFFER_IDX", 120); ("SBK_QOPENGLBUFFER_TYPE_IDX", 123);
   ("SBK_QOPENGLBUFFER_USAGEPATTERN_IDX", 124); ("SBK_QOPENGLBUFFER_ACCESS_IDX", 121);
   ("SBK_QOPENGLBUFFER_RANGEACCESSFLAG_IDX", 122);
   ("SBK_QFLAGS_QOPENGLBUFFER_RANGEACCESSFLAG__IDX", 39); ("SBK_QMATRIX4X4_IDX", 114);
   ("SBK_QQUATERNION_IDX", 182); ("SBK_QVECTOR4D_IDX", 286);
   ("SBK_QVECTOR3D_IDX", 285); ("SBK_QPALETTE_IDX", 161);
   ("SBK_QPALETTE_COLORGROUP_IDX", 162); ("SBK_QPALETTE_COLORROLE_IDX", 163);
   ("SBK_QSURFACE_IDX", 204); ("SBK_QSURFACE_SURFACECLASS_IDX", 205);
   ("SBK_QSURFACE_SURFACETYPE_IDX", 206); ("SBK_QSURFACEFORMAT_IDX", 207);
   ("SBK_QSURFACEFORMAT_FORMATOPTION_IDX", 208);
   ("SBK_QFLAGS_QSURFACEFORMAT_FORMATOPTION__IDX", 46);
   ("SBK_QSURFACEFORMAT_SWAPBEHAVIOR_IDX", 211);
   ("SBK_QSURFACEFORMAT_RENDERABLETYPE_IDX", 210);
   ("SBK_QSURFACEFORMAT_OPENGLCONTEXTPROFILE_IDX", 209); ("SBK_QCURSOR_IDX", 26);
   ("SBK_QSTANDARDITEM_IDX", 197); ("SBK_QSTANDARDITEM_ITEMTYPE_IDX", 198);
   ("SBK_QFONT_IDX", 54); ("SBK_QFONT_STYLEHINT_IDX", 59);
   ("SBK_QFONT_STYLESTRATEGY_IDX", 60); ("SBK_QFONT_HINTINGPREFERENCE_IDX", 293);
   ("SBK_QFONT_WEIGHT_IDX", 61); ("SBK_QFONT_STYLE_IDX", 58);
   ("SBK_QFONT_STRETCH_IDX", 57); ("SBK_QFONT_CAPITALIZATION_IDX", 55);
   ("SBK_QFONT_SPACINGTYPE_IDX", 56); ("SBK_QTEXTCHARFORMAT_IDX", 221);
   ("SBK_QTEXTCHARFORMAT_VERTICALALIGNMENT_IDX", 224);
   ("SBK_QTEXTCHARFORMAT_UNDERLINESTYLE_IDX", 223);
   ("SBK_QTEXTCHARFORMAT_FONTPROPERTIESINHERITANCEBEHAVIOR_IDX", 222);
   ("SBK_QTEXTTABLECELLFORMAT_IDX", 271); ("SBK_QTEXTIMAGEFORMAT_IDX", 247);
   ("SBK_QGRADIENT_IDX", 68); ("SBK_QGRADIENT_TYPE_IDX", 72);
   ("SBK_QGRADIENT_SPREAD_IDX", 71); ("SBK_QGRADIENT_COORDINATEMODE_IDX", 69);
   ("SBK_QGRADIENT_INTERPOLATIONMODE_IDX", 70); ("SBK_QCONICALGRADIENT_IDX", 23);
   ("SBK_QRADIALGRADIENT_IDX", 183); ("SBK_QLINEARGRADIENT_IDX", 104);
   ("SBK_QBRUSH_IDX", 16); ("SBK_QPIXMAPCACHE_IDX", 177);
   ("SBK_QPIXMAPCACHE_KEY_IDX", 178); ("SBK_QPICTUREIO_IDX", 167);
   ("SBK_QIMAGEIOHANDLER_IDX", 87); ("SBK_QIMAGEIOHANDLER_IMAGEOPTION_IDX", 88);
   ("SBK_QIMAGEIOHANDLER_TRANSFORMATION_IDX", 89);
   ("SBK_QFLAGS_QIMAGEIOHANDLER_TRANSFORMATION__IDX", 38); ("SBK_QTRANSFORM_IDX", 280);
   ("SBK_QTRANSFORM_TRANSFORMATIONTYPE_IDX", 281); ("SBK_QSTATICTEXT_IDX", 200);
   ("SBK_QSTATICTEXT_PERFORMANCEHINT_IDX", 201); ("SBK_QRAWFONT_IDX", 185);
   ("SBK_QRAWFONT_ANTIALIASINGTYPE_IDX", 186); ("SBK_QRAWFONT_LAYOUTFLAG_IDX", 187);
   ("SBK_QFLAGS_QRAWFONT_LAYOUTFLAG__IDX", 45); ("SBK_QPAINTERPATHSTROKER_IDX", 160);
   ("SBK_QMATRIX_IDX", 105); ("SBK_QPAINTERPATH_IDX", 157);
   ("SBK_QPAINTERPATH_ELEMENTTYPE_IDX", 159); ("SBK_QPAINTERPATH_ELEMENT_IDX", 158);
   ("SBK_QPOLYGONF_IDX", 180); ("SBK_QVECTOR_QPOINTF_IDX", 180);
   ("SBK_QPOLYGON_IDX", 179); ("SBK_QVECTOR_QPOINT_IDX", 179);
   ("SBK_QPIXELFORMAT_IDX", 168); ("SBK_QPIXELFORMAT_COLORMODEL_IDX", 173);
   ("SBK_QPIXELFORMAT_ALPHAUSAGE_IDX", 171);
   ("SBK_QPIXELFORMAT_ALPHAPOSITION_IDX", 169);
   ("SBK_QPIXELFORMAT_ALPHAPREMULTIPLIED_IDX", 170);
   ("SBK_QPIXELFORMAT_TYPEINTERPRETATION_IDX", 174);
   ("SBK_QPIXELFORMAT_YUVLAYOUT_IDX", 175); ("SBK_QPIXELFORMAT_BYTEORDER_IDX", 172);
   ("SBK_QPAINTDEVICE_IDX", 142); ("SBK_QPAINTDEVICE_PAINTDEVICEMETRIC_IDX", 143);
   ("SBK_QPAGEDPAINTDEVICE_IDX", 139); ("SBK_QPAGEDPAINTDEVICE_PAGESIZE_IDX", 141);
   ("SBK_QPAGEDPAINTDEVICE_MARGINS_IDX", 140); ("SBK_QPICTURE_IDX", 166);
   ("SBK_QACCESSIBLEEVENT_IDX", 11); ("SBK_QACCESSIBLEINTERFACE_IDX", 12);
   ("SBK_QACCESSIBLE_IDX", 3); ("SBK_QACCESSIBLE_EVENT_IDX", 4);
   ("SBK_QACCESSIBLE_ROLE_IDX", 7); ("SBK_QACCESSIBLE_TEXT_IDX", 9);
   ("SBK_QACCESSIBLE_RELATIONFLAG_IDX", 6); ("SBK_QACCESSIBLE_INTERFACETYPE_IDX", 5);
   ("SBK_QACCESSIBLE_TEXTBOUNDARYTYPE_IDX", 10); ("SBK_QACCESSIBLE_STATE_IDX", 8);
   ("SBK_QTOUCHDEVICE_IDX", 274); ("SBK_QTOUCHDEVICE_DEVICETYPE_IDX", 276);
   ("SBK_QTOUCHDEVICE_CAPABILITYFLAG_IDX", 275);
   ("SBK_QFLAGS_QTOUCHDEVICE_CAPABILITYFLAG__IDX", 51); ("SBK_QVECTOR2D_IDX", 284);
   ("SBK_QKEYSEQUENCE_IDX", 100); ("SBK_QKEYSEQUENCE_STANDARDKEY_IDX", 103);
   ("SBK_QKEYSEQUENCE_SEQUENCEFORMAT_IDX", 101);
   ("SBK_QKEYSEQUENCE_SEQUENCEMATCH_IDX", 102); ("SBK_QCOLOR_IDX", 20);
   ("SBK_QCOLOR_SPEC_IDX", 22); ("SBK_QCOLOR_NAMEFORMAT_IDX", 21);
   ("SBK_QTEXTLAYOUT_IDX", 251); ("SBK_QTEXTLAYOUT_CURSORMODE_IDX", 252);
   ("SBK_QTEXTLAYOUT_FORMATRANGE_IDX", 253); ("SBK_QPIXMAP_IDX", 176);
   ("SBK_QIMAGE_IDX", 84); ("SBK_QIMAGE_INVERTMODE_IDX", 86);
   ("SBK_QIMAGE_FORMAT_IDX", 85); ("SBK_QBITMAP_IDX", 15); ("SBK_QICON_IDX", 77);
   ("SBK_QICON_MODE_IDX", 78); ("SBK_QICON_STATE_IDX", 79);
   ("SBK_QICONENGINE_IDX", 81); ("SBK_QICONENGINE_ICONENGINEHOOK_IDX", 83);
   ("SBK_QICONENGINE_AVAILABLESIZESARGUMENT_IDX", 82); ("SBK_QPAGELAYOUT_IDX", 131);
   ("SBK_QPAGELAYOUT_UNIT_IDX", 134); ("SBK_QPAGELAYOUT_ORIENTATION_IDX", 133);
   ("SBK_QPAGELAYOUT_MODE_IDX", 132); ("SBK_QPAINTER_IDX", 152);
   ("SBK_QPAINTER_RENDERHINT_IDX", 156); ("SBK_QFLAGS_QPAINTER_RENDERHINT__IDX", 44);
   ("SBK_QPAINTER_PIXMAPFRAGMENTHINT_IDX", 155);
   ("SBK_QFLAGS_QPAINTER_PIXMAPFRAGMENTHINT__IDX", 43);
   ("SBK_QPAINTER_COMPOSITIONMODE_IDX", 153); ("SBK_QPAINTER_PIXMAPFRAGMENT_IDX", 154);
   ("SBK_QBACKINGSTORE_IDX", 14); ("SBK_QWINDOWSTATECHANGEEVENT_IDX", 292);
   ("SBK_QSHORTCUTEVENT_IDX", 195); ("SBK_QDROPEVENT_IDX", 34);
   ("SBK_QDRAGMOVEEVENT_IDX", 33); ("SBK_QDRAGENTEREVENT_IDX", 31);
   ("SBK_QINPUTMETHODEVENT_IDX", 95); ("SBK_QINPUTMETHODEVENT_ATTRIBUTETYPE_IDX", 97);
   ("SBK_QINPUTMETHODEVENT_ATTRIBUTE_IDX", 96); ("SBK_QCLOSEEVENT_IDX", 19);
   ("SBK_QSTATUSTIPEVENT_IDX", 202); ("SBK_QRESIZEEVENT_IDX", 191);
   ("SBK_QHELPEVENT_IDX", 74); ("SBK_QEXPOSEEVENT_IDX", 36);
   ("SBK_QDRAGLEAVEEVENT_IDX", 32); ("SBK_QMOVEEVENT_IDX", 116);
   ("SBK_QHIDEEVENT_IDX", 75); ("SBK_QSHOWEVENT_IDX", 196);
   ("SBK_QICONDRAGEVENT_IDX", 80); ("SBK_QENTEREVENT_IDX", 35);
   ("SBK_QPAINTEVENT_IDX", 151); ("SBK_QFOCUSEVENT_IDX", 53);
   ("SBK_QINPUTEVENT_IDX", 94); ("SBK_QKEYEVENT_IDX", 99);
   ("SBK_QTABLETEVENT_IDX", 213); ("SBK_QTABLETEVENT_TABLETDEVICE_IDX", 215);
   ("SBK_QTABLETEVENT_POINTERTYPE_IDX", 214); ("SBK_QCONTEXTMENUEVENT_IDX", 24);
   ("SBK_QCONTEXTMENUEVENT_REASON_IDX", 25); ("SBK_QTOUCHEVENT_IDX", 277);
   ("SBK_QTOUCHEVENT_TOUCHPOINT_IDX", 278);
   ("SBK_QTOUCHEVENT_TOUCHPOINT_INFOFLAG_IDX", 279);
   ("SBK_QFLAGS_QTOUCHEVENT_TOUCHPOINT_INFOFLAG__IDX", 52);
   ("SBK_QWHEELEVENT_IDX", 288); ("SBK_QHOVEREVENT_IDX", 76);
   ("SBK_QMOUSEEVENT_IDX", 115); ("SBK_QTOOLBARCHANGEEVENT_IDX", 273);
   ("SBK_QFILEOPENEVENT_IDX", 37); ("SBK_QACTIONEVENT_IDX", 13);
   ("SBK_QWHATSTHISCLICKEDEVENT_IDX", 287); ("SBK_QREGION_IDX", 189);
   ("SBK_QREGION_REGIONTYPE_IDX", 190); ("SBK_QOPENGLCONTEXT_IDX", 125);
   ("SBK_QOPENGLCONTEXT_OPENGLMODULETYPE_IDX", 126); ("SBK_QSESSIONMANAGER_IDX", 193);
   ("SBK_QSESSIONMANAGER_RESTARTHINT_IDX", 194); ("SBK_QSCREEN_IDX", 192);
   ("SBK_QCLIPBOARD_IDX", 17); ("SBK_QCLIPBOARD_MODE_IDX", 18);
   ("SBK_QVALIDATOR_IDX", 282); ("SBK_QVALIDATOR_STATE_IDX", 283);
   ("SBK_QINTVALIDATOR_IDX", 98); ("SBK_QREGEXPVALIDATOR_IDX", 188);
   ("SBK_QDOUBLEVALIDATOR_IDX", 28); ("SBK_QDOUBLEVALIDATOR_NOTATION_IDX", 29);
   ("SBK_QDRAG_IDX", 30); ("SBK_QSYNTAXHIGHLIGHTER_IDX", 212);
   ("SBK_QSTYLEHINTS_IDX", 203); ("SBK_QPYTEXTOBJECT_IDX", 181);
   ("SBK_QOPENGLSHADER_IDX", 129); ("SBK_QOPENGLSHADER_SHADERTYPEBIT_IDX", 130);
   ("SBK_QFLAGS_QOPENGLSHADER_SHADERTYPEBIT__IDX", 40); ("SBK_QPDFWRITER_IDX", 164);
   ("SBK_QSTANDARDITEMMODEL_IDX", 199); ("SBK_QGUIAPPLICATION_IDX", 73);
   ("SBK_QTEXTOBJECT_IDX", 262); ("SBK_QTEXTFRAME_IDX", 242);
   ("SBK_QTEXTTABLE_IDX", 269); ("SBK_QTEXTFRAME_ITERATOR_IDX", 243);
   ("SBK_QTEXTBLOCKGROUP_IDX", 219); ("SBK_QTEXTLIST_IDX", 259);
   ("SBK_QABSTRACTTEXTDOCUMENTLAYOUT_IDX", 0);
   ("SBK_QABSTRACTTEXTDOCUMENTLAYOUT_PAINTCONTEXT_IDX", 1);
   ("SBK_QABSTRACTTEXTDOCUMENTLAYOUT_SELECTION_IDX", 2); ("SBK_QWINDOW_IDX", 289);
   ("SBK_QWINDOW_VISIBILITY_IDX", 291); ("SBK_QWINDOW_ANCESTORMODE_IDX", 290);
   ("SBK_QPAINTDEVICEWINDOW_IDX", 144); ("SBK_QRASTERWINDOW_IDX", 184);
   ("SBK_QMOVIE_IDX", 117); ("SBK_QMOVIE_MOVIESTATE_IDX", 119);
   ("SBK_QMOVIE_CACHEMODE_IDX", 118); ("SBK_QIMAGEWRITER_IDX", 92);
   ("SBK_QIMAGEWRITER_IMAGEWRITERERROR_IDX", 93); ("SBK_QIMAGEREADER_IDX", 90);
   ("SBK_QIMAGEREADER_IMAGEREADERERROR_IDX", 91); ("SBK_QTEXTDOCUMENTWRITER_IDX", 235);
   ("SBK_QTEXTDOCUMENTFRAGMENT_IDX", 234); ("SBK_QTEXTDOCUMENT_IDX", 229);
   ("SBK_QTEXTDOCUMENT_METAINFORMATION_IDX", 231);
   ("SBK_QTEXTDOCUMENT_FINDFLAG_IDX", 230);
   ("SBK_QFLAGS_QTEXTDOCUMENT_FINDFLAG__IDX", 47);
   ("SBK_QTEXTDOCUMENT_RESOURCETYPE_IDX", 232); ("SBK_QTEXTDOCUMENT_STACKS_IDX", 233)].

Definition SBK_QtGui_IDX_COUNT : Z := 295.

(** The [#define]s of the block "Converter indices" (lines 466-511). *)
Definition converter_indices : list (string * Z) :=
  [("SBK_WID_IDX", 0); ("SBK_QTGUI_QVECTOR_QTEXTLAYOUT_FORMATRANGE_IDX", 1);
   ("SBK_QTGUI_QLIST_INT_IDX", 2);
   ("SBK_QTGUI_QLIST_QFONTDATABASE_WRITINGSYSTEM_IDX", 3);
   ("SBK_QTGUI_QVECTOR_QTEXTLENGTH_IDX", 4); ("SBK_QTGUI_QMAP_INT_QVARIANT_IDX", 5);
   ("SBK_QTGUI_QLIST_QTEXTOPTION_TAB_IDX", 6); ("SBK_QTGUI_QVECTOR_QREAL_IDX", 7);
   ("SBK_QTGUI_QLIST_QREAL_IDX", 8); ("SBK_QTGUI_QVECTOR_QSIZE_IDX", 9);
   ("SBK_QTGUI_QLIST_FLOAT_IDX", 10); ("SBK_QTGUI_QPAIR_INT_INT_IDX", 11);
   ("SBK_QTGUI_QLIST_QSTANDARDITEMPTR_IDX", 12);
   ("SBK_QTGUI_QPAIR_QREAL_QCOLOR_IDX", 13);
   ("SBK_QTGUI_QVECTOR_QPAIR_QREAL_QCOLOR_IDX", 14);
   ("SBK_QTGUI_QLIST_QBYTEARRAY_IDX", 15); ("SBK_QTGUI_QVECTOR_QPOINTF_IDX", 16);
   ("SBK_QTGUI_QVECTOR_QUINT32_IDX", 17); ("SBK_QTGUI_QLIST_QPOLYGONF_IDX", 18);
   ("SBK_QTGUI_QLIST_QPOINTF_IDX", 19); ("SBK_QTGUI_QVECTOR_QPOINT_IDX", 20);
   ("SBK_QTGUI_QLIST_QPOINT_IDX", 21);
   ("SBK_QTGUI_QLIST_CONSTQTOUCHDEVICEPTR_IDX", 22);
   ("SBK_QTGUI_QLIST_QKEYSEQUENCE_IDX", 23);
   ("SBK_QTGUI_QLIST_QTEXTLAYOUT_FORMATRANGE_IDX", 24);
   ("SBK_QTGUI_QVECTOR_UNSIGNEDINT_IDX", 25); ("SBK_QTGUI_QLIST_QSIZE_IDX", 26);
   ("SBK_QTGUI_QVECTOR_QLINE_IDX", 27); ("SBK_QTGUI_QVECTOR_QLINEF_IDX", 28);
   ("SBK_QTGUI_QVECTOR_QRECT_IDX", 29); ("SBK_QTGUI_QVECTOR_QRECTF_IDX", 30);
   ("SBK_QTGUI_QLIST_QINPUTMETHODEVENT_ATTRIBUTE_IDX", 31);
   ("SBK_QTGUI_QLIST_QTOUCHEVENT_TOUCHPOINT_IDX", 32);
   ("SBK_QTGUI_QLIST_QOBJECTPTR_IDX", 33); ("SBK_QTGUI_QSET_QBYTEARRAY_IDX", 34);
   ("SBK_QTGUI_QLIST_QSCREENPTR_IDX", 35); ("SBK_QTGUI_QVECTOR_INT_IDX", 36);
   ("SBK_QTGUI_QHASH_INT_QBYTEARRAY_IDX", 37);
   ("SBK_QTGUI_QLIST_QPERSISTENTMODELINDEX_IDX", 38);
   ("SBK_QTGUI_QLIST_QWINDOWPTR_IDX", 39); ("SBK_QTGUI_QLIST_QTEXTFRAMEPTR_IDX", 40);
   ("SBK_QTGUI_QLIST_QTEXTBLOCK_IDX", 41); ("SBK_QTGUI_QVECTOR_QTEXTFORMAT_IDX", 42);
   ("SBK_QTGUI_QLIST_QVARIANT_IDX", 43); ("SBK_QTGUI_QLIST_QSTRING_IDX", 44);
   ("SBK_QTGUI_QMAP_QSTRING_QVARIANT_IDX", 45)].

Definition SBK_QtGui_CONVERTERS_IDX_COUNT : Z := 46.

(** [table[index]]: reading a C array of [count] entries is defined only
    for [0 <= index < count]. *)
Definition lookup {A : Type} (table : list A) (index : Z) : option A :=
  if (0 <=? index) && (index <? Z.of_nat (length table))
  then table !! Z.to_nat index
  else None.

End QtGui.

(** ** Runs and what is observed of them *)

(** The process as [main] finds it: the environment it was started with,
    the global [info] zero-initialised, no call made yet. *)
Definition boot (env : gmap (list Z) (list Z)) : process := Process env 0 [].

(** The name of the function an event is a call of. *)
Definition callee (e : event) : string :=
  match e with
  | EvGetModuleFileNameW _ => "GetModuleFileNameW"
  | EvPathRemoveFileSpecW _ => "PathRemoveFileSpecW"
  | Ev_wstat _ => "_wstat"
  | Ev_wgetenv_s _ _ => "_wgetenv_s"
  | Ev_malloc _ => "malloc"
  | Ev_wputenv_s _ _ => "_wputenv_s"
  | EvMessageBox _ _ _ => "MessageBox"
  | EvCFUserNotificationDisplayAlert _ _ _ => "CFUserNotificationDisplayAlert"
  | EvPy_SetProgramName _ => "Py_SetProgramName"
  | EvPyEval_InitThreads => "PyEval_InitThreads"
  | EvPy_Initialize _ => "Py_Initialize"
  | EvPySys_SetArgv _ _ => "PySys_SetArgv"
  | EvWideCharToMultiByte _ _ => "WideCharToMultiByte"
  | EvPyRun_SimpleString _ => "PyRun_SimpleString"
  | EvPy_Finalize => "Py_Finalize"
  end.


(** The blocking alerts shown. *)
Definition is_alert (e : event) : bool :=
  match e with
  | EvMessageBox _ _ _ | EvCFUserNotificationDisplayAlert _ _ _ => true
  | _ => false
  end.

Definition alerts (t : list event) : list event := List.filter is_alert t.

(** The command strings handed to the interpreter. *)
Definition commands (t : list event) : list (list Z) :=
  omap (λ e, match e with EvPyRun_SimpleString c => Some c | _ => None end) t.

(** The environment blocks found by the interpreters started. *)
Definition inherited_environments (t : list event) : list (gmap (list Z) (list Z)) :=
  omap (λ e, match e with EvPy_Initialize env => Some env | _ => None end) t.

(** The calls made, alerts left out, by name. *)
Definition steps (t : list event) : list string :=
  callee <$> List.filter (λ e, negb (is_alert e)) t.

(** The calls that write the environment or belong to the interpreter. *)
Definition touches_environment_or_interpreter (e : event) : bool :=
  match e with
  | Ev_wputenv_s _ _ | EvPy_SetProgramName _ | EvPyEval_InitThreads
  | EvPy_Initialize _ | EvPySys_SetArgv _ _ | EvPyRun_SimpleString _
  | EvPy_Finalize => true
  | _ => false
  end.


(** The calls of each [main] in the order of its source text. *)
Definition Win_script : list string :=
  ["GetModuleFileNameW"; "PathRemoveFileSpecW"; "_wstat"; "_wgetenv_s";
   "malloc"; "_wgetenv_s"; "_wputenv_s"; "_wstat"; "_wputenv_s";
   "Py_SetProgramName"; "PyEval_InitThreads"; "Py_Initialize"; "PySys_SetArgv";
   "WideCharToMultiByte"; "WideCharToMultiByte"; "PyRun_SimpleString";
   "Py_Finalize"].

(** The same when [WstrToUtf8Str] leaves after its size query (line 27
    false). *)
Definition Win_script_one_conversion : list string :=
  ["GetModuleFileNameW"; "PathRemoveFileSpecW"; "_wstat"; "_wgetenv_s";
   "malloc"; "_wgetenv_s"; "_wputenv_s"; "_wstat"; "_wputenv_s";
   "Py_SetProgramName"; "PyEval_InitThreads"; "Py_Initialize"; "PySys_SetArgv";
   "WideCharToMultiByte"; "PyRun_SimpleString"; "Py_Finalize"].

Definition Osx_script : list string :=
  ["Py_SetProgramName"; "PyEval_InitThreads"; "Py_Initialize"; "PySys_SetArgv";
   "PyRun_SimpleString"; "Py_Finalize"].

(** What the interpreter did with the command of a run that started one
    interpreter and gave it one command; [None] for any other run.  Neither
    [main] writes the environment between [Py_Initialize] and
    [PyRun_SimpleString], so the environment of the call is the one
    inherited. *)
Definition interpreter_answer (w : World) (argc : Z) (argv : list (list Z))
    (t : list event) : option py_outcome :=
  match inherited_environments t, commands t with
  | [environment], [command] =>
      Some (w_PyRun_SimpleString w environment argc argv command)
  | _, _ => None
  end.


(** *** The values [Win.main] computes on its way, as functions of the input *)
Module WinRun.

Definition path (w : World) : list Z :=
  snd (w_PathRemoveFileSpecW w (snd (w_GetModuleFileNameW w MAX_PATH))).

Definition bin_dir (w : World) : list Z := c_str (path w) ++ wide "\bin".

Definition modified_path (w : World) (pathvar : list Z) : list Z :=
  bin_dir w ++ wide ";" ++ c_str pathvar.

Definition pydll (w : World) : list Z := c_str (path w) ++ wide "\python27.dll".

Definition pythonpath (w : World) : list Z := c_str (path w) ++ wide "\shared".

(** What [WstrToUtf8Str] returns or throws; it does not depend on the
    process state. *)
Definition converted (w : World) (wstr : list Z) : result (list Z) :=
  fst (Win.WstrToUtf8Str w wstr (boot ∅)).

(** The environment after the two [_wputenv_s] calls of lines 127 and 143. *)
Definition environment_written (w : World) (env : gmap (list Z) (list Z))
    (pathvar : list Z) : gmap (list Z) (list Z) :=
  put_variable (c_str (pythonpath w)) (wide "PYTHONPATH")
    (put_variable (c_str (modified_path w pathvar)) (wide "PATH") env).

(** What the interpreter does with the command [cmd] at line 159. *)
Definition answer (w : World) (argc : Z) (argv : list (list Z))
    (env : gmap (list Z) (list Z)) (pathvar cmd : list Z) : py_outcome :=
  w_PyRun_SimpleString w (environment_written w env pathvar) argc argv (c_str cmd).

(** The checks of [main] that precede the first [_wputenv_s]. *)
Inductive early_failure (w : World) (env : gmap (list Z) (list Z)) : Prop :=
  | module_file_name_unresolved :
      fst (w_GetModuleFileNameW w MAX_PATH) = 0 → early_failure w env
  | file_name_not_stripped :
      fst (w_PathRemoveFileSpecW w (snd (w_GetModuleFileNameW w MAX_PATH))) = 0 →
      early_failure w env
  | bin_missing :
      w_wstat w (c_str (bin_dir w)) = None → early_failure w env
  | bin_not_a_directory (st_mode : Z) :
      w_wstat w (c_str (bin_dir w)) = Some st_mode →
      Z.land st_mode S_IFDIR = 0 → early_failure w env
  | path_lookup_failed :
      env !! wide "PATH" = None → early_failure w env
  | allocation_failed (pathvar : list Z) :
      env !! wide "PATH" = Some pathvar →
      w_malloc w ((len pathvar + 1) * 2) = false → early_failure w env.

(** Every failure the launcher checks for. *)
Inductive setup_failure (w : World) (argc : Z) (argv : list (list Z))
    (env : gmap (list Z) (list Z)) : Prop :=
  | before_environment_write : early_failure w env → setup_failure w argc argv env
  | python27_dll_missing :
      w_wstat w (c_str (pydll w)) = None → setup_failure w argc argv env
  | python_error (pathvar cmd : list Z) :
      env !! wide "PATH" = Some pathvar →
      converted w (Win.wcmd (modified_path w pathvar) (path w)) = Ret cmd →
      answer w argc argv env pathvar cmd = PyReturns (-1) →
      setup_failure w argc argv env.

(** Every setup step succeeds. *)
Record setup_succeeds (w : World) (env : gmap (list Z) (list Z))
    (pathvar cmd : list Z) : Prop := {
  executable_path_resolves : fst (w_GetModuleFileNameW w MAX_PATH) ≠ 0;
  file_name_stripped :
    fst (w_PathRemoveFileSpecW w (snd (w_GetModuleFileNameW w MAX_PATH))) ≠ 0;
  bin_is_a_directory :
    ∃ st_mode, w_wstat w (c_str (bin_dir w)) = Some st_mode ∧
               Z.land st_mode S_IFDIR ≠ 0;
  path_lookup_succeeds : env !! wide "PATH" = Some pathvar;
  allocation_succeeds : w_malloc w ((len pathvar + 1) * 2) = true;
  python27_dll_exists : is_Some (w_wstat w (c_str (pydll w)));
  command_converted :
    converted w (Win.wcmd (modified_path w pathvar) (path w)) = Ret cmd
}.

(** The conversion API answers as documented for [src]: the size query
    gives the length of the encoding and its terminator, the conversion
    into a buffer of that size writes them. *)
Definition faithful (w : World) (src : list Z) : Prop :=
  fst (w_WideCharToMultiByte w src 0) = len (Utf8.encode src ++ [0]) ∧
  w_WideCharToMultiByte w src (len (Utf8.encode src ++ [0]))
    = (len (Utf8.encode src ++ [0]), Utf8.encode src ++ [0]).

End WinRun.

(** ** Concrete worlds *)

(** [WideCharToMultiByte] converting as documented. *)
Definition utf8_WideCharToMultiByte (src : list Z) (cbMultiByte : Z) : Z * list Z :=
  let out := Utf8.encode src ++ [0] in
  if cbMultiByte =? 0 then (len out, [])
  else if len out <=? cbMultiByte then (len out, out)
  else (0, []).

(** [PathRemoveFileSpecW] on a path with a backslash: what follows the last
    backslash goes, and the backslash with it. *)
Fixpoint strip_file_name (pszPath : list Z) : Z * list Z :=
  match pszPath with
  | [] => (0, [])
  | c :: rest =>
      let '(found, dir) := strip_file_name rest in
      if found =? 0 then (if c =? 92 then (1, []) else (0, c :: rest))
      else (1, c :: dir)
  end.

(** An installation in [C:\app]: [bin] is a directory, [python27.dll] a
    file, the startup command runs. *)
Definition installed : World := {|
  w_GetModuleFileNameW := λ _, (20, wide "C:\app\bookmarks.exe");
  w_PathRemoveFileSpecW := strip_file_name;
  w_wstat := λ path,
    if bool_decide (path = wide "C:\app\bin") then Some 0x41FF
    else if bool_decide (path = wide "C:\app\python27.dll") then Some 0x81B6
    else None;
  w_malloc := λ _, true;
  w_WideCharToMultiByte := utf8_WideCharToMultiByte;
  w_PyRun_SimpleString := λ _ _ _ _, PyReturns 0
|}.

(** The same installation with one answer changed. *)
Definition without_bin : World := {|
  w_GetModuleFileNameW := w_GetModuleFileNameW installed;
  w_PathRemoveFileSpecW := w_PathRemoveFileSpecW installed;
  w_wstat := λ path,
    if bool_decide (path = wide "C:\app\bin") then None else w_wstat installed path;
  w_malloc := w_malloc installed;
  w_WideCharToMultiByte := w_WideCharToMultiByte installed;
  w_PyRun_SimpleString := w_PyRun_SimpleString installed
|}.

Definition python_fails : World := {|
  w_GetModuleFileNameW := w_GetModuleFileNameW installed;
  w_PathRemoveFileSpecW := w_PathRemoveFileSpecW installed;
  w_wstat := w_wstat installed;
  w_malloc := w_malloc installed;
  w_WideCharToMultiByte := w_WideCharToMultiByte installed;
  w_PyRun_SimpleString := λ _ _ _ _, PyReturns (-1)
|}.

(** The application ends the process itself: [bookmarks.exec_()] raises
    [SystemExit(3)]. *)
Definition application_exits : World := {|
  w_GetModuleFileNameW := w_GetModuleFileNameW installed;
  w_PathRemoveFileSpecW := w_PathRemoveFileSpecW installed;
  w_wstat := w_wstat installed;
  w_malloc := w_malloc installed;
  w_WideCharToMultiByte := w_WideCharToMultiByte installed;
  w_PyRun_SimpleString := λ _ _ _ _, PyExits 3
|}.

Definition windows_environment : gmap (list Z) (list Z) :=
  {[ wide "PATH" := wide "C:\Windows" ]}.

(** A PATH whose last directory is written with a closing backslash. *)
Definition environment_with_closing_backslash : gmap (list Z) (list Z) :=
  {[ wide "PATH" := wide "C:\Windows\" ]}.

Definition command_line : list (list Z) := [narrow "bookmarks.exe"].

Definition macos_environment : gmap (list Z) (list Z) :=
  {[ narrow "PATH" := narrow "/usr/bin:/bin" ]}.

Definition macos_command_line : list (list Z) :=
  [narrow "/Applications/Bookmarks.app/Contents/MacOS/Bookmarks"].

(** The command the installation above hands to the interpreter. *)
Definition startup_command : list Z :=
  Utf8.encode
    (Win.wcmd (WinRun.modified_path installed (wide "C:\Windows"))
       (WinRun.path installed)).

(** The environment after the two [_wputenv_s] calls of the installation
    above, started with [windows_environment]. *)
Definition inherited_by_interpreter : gmap (list Z) (list Z) :=
  <[wide "C:\app\shared" := wide "PYTHONPATH"]>
    (<[wide "C:\app\bin;C:\Windows" := wide "PATH"]> windows_environment).

(** ** More of the header: the [SbkType] specializations *)
Module Shiboken.

(** The specializations [template<> inline PyTypeObject* SbkType< T >()] of
    lines 520-814, in the order of the header: [T] as written between the
    angle brackets, and the macro that indexes [SbkPySide2_QtGuiTypes].  The
    [reinterpret_cast] around some of the reads changes the static type of
    the pointer read, not the slot it is read from. *)
Definition SbkType_specializations : list (string * string) :=
  [("::QMatrix4x3", "SBK_QMATRIX4X3_IDX"); ("::QMatrix4x2", "SBK_QMATRIX4X2_IDX");
   ("::QMatrix3x4", "SBK_QMATRIX3X4_IDX"); ("::QMatrix3x3", "SBK_QMATRIX3X3_IDX");
   ("::QMatrix3x2", "SBK_QMATRIX3X2_IDX"); ("::QMatrix2x4", "SBK_QMATRIX2X4_IDX");
   ("::QMatrix2x3", "SBK_QMATRIX2X3_IDX"); ("::QMatrix2x2", "SBK_QMATRIX2X2_IDX");
   ("::QDesktopServices", "SBK_QDESKTOPSERVICES_IDX");
   ("::QTextTableCell", "SBK_QTEXTTABLECELL_IDX");
   ("::QTextFragment", "SBK_QTEXTFRAGMENT_IDX");
   ("::QTextBlock", "SBK_QTEXTBLOCK_IDX");
   ("::QTextBlock::iterator", "SBK_QTEXTBLOCK_ITERATOR_IDX");
   ("::QTextBlockUserData", "SBK_QTEXTBLOCKUSERDATA_IDX");
   ("::QTextObjectInterface", "SBK_QTEXTOBJECTINTERFACE_IDX");
   ("::QTextLine::Edge", "SBK_QTEXTLINE_EDGE_IDX");
   ("::QTextLine::CursorPosition", "SBK_QTEXTLINE_CURSORPOSITION_IDX");
   ("::QTextLine", "SBK_QTEXTLINE_IDX");
   ("::QTextInlineObject", "SBK_QTEXTINLINEOBJECT_IDX");
   ("::QTextCursor::MoveMode", "SBK_QTEXTCURSOR_MOVEMODE_IDX");
   ("::QTextCursor::MoveOperation", "SBK_QTEXTCURSOR_MOVEOPERATION_IDX");
   ("::QTextCursor::SelectionType", "SBK_QTEXTCURSOR_SELECTIONTYPE_IDX");
   ("::QTextCursor", "SBK_QTEXTCURSOR_IDX");
   ("::QFontDatabase::WritingSystem", "SBK_QFONTDATABASE_WRITINGSYSTEM_IDX");
   ("::QFontDatabase::SystemFont", "SBK_QFONTDATABASE_SYSTEMFONT_IDX");
   ("::QFontDatabase", "SBK_QFONTDATABASE_IDX");
   ("::QTextFormat::FormatType", "SBK_QTEXTFORMAT_FORMATTYPE_IDX");
   ("::QTextFormat::Property", "SBK_QTEXTFORMAT_PROPERTY_IDX");
   ("::QTextFormat::ObjectTypes", "SBK_QTEXTFORMAT_OBJECTTYPES_IDX");
   ("::QTextFormat::PageBreakFlag", "SBK_QTEXTFORMAT_PAGEBREAKFLAG_IDX");
   ("::QFlags<QTextFormat::PageBreakFlag>", "SBK_QFLAGS_QTEXTFORMAT_PAGEBREAKFLAG__IDX");
   ("::QTextFormat", "SBK_QTEXTFORMAT_IDX");
   ("::QTextListFormat::Style", "SBK_QTEXTLISTFORMAT_STYLE_IDX");
   ("::QTextListFormat", "SBK_QTEXTLISTFORMAT_IDX");
   ("::QTextBlockFormat::LineHeightTypes", "SBK_QTEXTBLOCKFORMAT_LINEHEIGHTTYPES_IDX");
   ("::QTextBlockFormat", "SBK_QTEXTBLOCKFORMAT_IDX");
   ("::QTextFrameFormat::Position", "SBK_QTEXTFRAMEFORMAT_POSITION_IDX");
   ("::QTextFrameFormat::BorderStyle", "SBK_QTEXTFRAMEFORMAT_BORDERSTYLE_IDX");
   ("::QTextFrameFormat", "SBK_QTEXTFRAMEFORMAT_IDX");
   ("::QTextTableFormat", "SBK_QTEXTTABLEFORMAT_IDX");
   ("::QTextLength::Type", "SBK_QTEXTLENGTH_TYPE_IDX");
   ("::QTextLength", "SBK_QTEXTLENGTH_IDX");
   ("::QPaintEngineState", "SBK_QPAINTENGINESTATE_IDX");
   ("::QPaintEngine::PaintEngineFeature", "SBK_QPAINTENGINE_PAINTENGINEFEATURE_IDX");
   ("::QFlags<QPaintEngine::PaintEngineFeature>", "SBK_QFLAGS_QPAINTENGINE_PAINTENGINEFEATURE__IDX");
   ("::QPaintEngine::DirtyFlag", "SBK_QPAINTENGINE_DIRTYFLAG_IDX");
   ("::QFlags<QPaintEngine::DirtyFlag>", "SBK_QFLAGS_QPAINTENGINE_DIRTYFLAG__IDX");
   ("::QPaintEngine::PolygonDrawMode", "SBK_QPAINTENGINE_POLYGONDRAWMODE_IDX");
   ("::QPaintEngine::Type", "SBK_QPAINTENGINE_TYPE_IDX");
   ("::QPaintEngine", "SBK_QPAINTENGINE_IDX");
   ("::QTextItem::RenderFlag", "SBK_QTEXTITEM_RENDERFLAG_IDX");
   ("::QFlags<QTextItem::RenderFlag>", "SBK_QFLAGS_QTEXTITEM_RENDERFLAG__IDX");
   ("::QTextItem", "SBK_QTEXTITEM_IDX"); ("::QFontMetricsF", "SBK_QFONTMETRICSF_IDX");
   ("::QFontMetrics", "SBK_QFONTMETRICS_IDX"); ("::QFontInfo", "SBK_QFONTINFO_IDX");
   ("::QPen", "SBK_QPEN_IDX");
   ("::QTextOption::TabType", "SBK_QTEXTOPTION_TABTYPE_IDX");
   ("::QTextOption::WrapMode", "SBK_QTEXTOPTION_WRAPMODE_IDX");
   ("::QTextOption::Flag", "SBK_QTEXTOPTION_FLAG_IDX");
   ("::QFlags<QTextOption::Flag>", "SBK_QFLAGS_QTEXTOPTION_FLAG__IDX");
   ("::QTextOption", "SBK_QTEXTOPTION_IDX");
   ("::QTextOption::Tab", "SBK_QTEXTOPTION_TAB_IDX");
   ("::QPageSize::PageSizeId", "SBK_QPAGESIZE_PAGESIZEID_IDX");
   ("::QPageSize::Unit", "SBK_QPAGESIZE_UNIT_IDX");
   ("::QPageSize::SizeMatchPolicy", "SBK_QPAGESIZE_SIZEMATCHPOLICY_IDX");
   ("::QPageSize", "SBK_QPAGESIZE_IDX");
   ("::QOpenGLFramebufferObject::Attachment", "SBK_QOPENGLFRAMEBUFFEROBJECT_ATTACHMENT_IDX");
   ("::QOpenGLFramebufferObject", "SBK_QOPENGLFRAMEBUFFEROBJECT_IDX");
   ("::QOpenGLBuffer::Type", "SBK_QOPENGLBUFFER_TYPE_IDX");
   ("::QOpenGLBuffer::UsagePattern", "SBK_QOPENGLBUFFER_USAGEPATTERN_IDX");
   ("::QOpenGLBuffer::Access", "SBK_QOPENGLBUFFER_ACCESS_IDX");
   ("::QOpenGLBuffer::RangeAccessFlag", "SBK_QOPENGLBUFFER_RANGEACCESSFLAG_IDX");
   ("::QFlags<QOpenGLBuffer::RangeAccessFlag>", "SBK_QFLAGS_QOPENGLBUFFER_RANGEACCESSFLAG__IDX");
   ("::QOpenGLBuffer", "SBK_QOPENGLBUFFER_IDX");
   ("::QMatrix4x4", "SBK_QMATRIX4X4_IDX"); ("::QQuaternion", "SBK_QQUATERNION_IDX");
   ("::QVector4D", "SBK_QVECTOR4D_IDX"); ("::QVector3D", "SBK_QVECTOR3D_IDX");
   ("::QPalette::ColorGroup", "SBK_QPALETTE_COLORGROUP_IDX");
   ("::QPalette::ColorRole", "SBK_QPALETTE_COLORROLE_IDX");
   ("::QPalette", "SBK_QPALETTE_IDX");
   ("::QSurface::SurfaceClass", "SBK_QSURFACE_SURFACECLASS_IDX");
   ("::QSurface::SurfaceType", "SBK_QSURFACE_SURFACETYPE_IDX");
   ("::QSurface", "SBK_QSURFACE_IDX");
   ("::QSurfaceFormat::FormatOption", "SBK_QSURFACEFORMAT_FORMATOPTION_IDX");
   ("::QFlags<QSurfaceFormat::FormatOption>", "SBK_QFLAGS_QSURFACEFORMAT_FORMATOPTION__IDX");
   ("::QSurfaceFormat::SwapBehavior", "SBK_QSURFACEFORMAT_SWAPBEHAVIOR_IDX");
   ("::QSurfaceFormat::RenderableType", "SBK_QSURFACEFORMAT_RENDERABLETYPE_IDX");
   ("::QSurfaceFormat::OpenGLContextProfile", "SBK_QSURFACEFORMAT_OPENGLCONTEXTPROFILE_IDX");
   ("::QSurfaceFormat", "SBK_QSURFACEFORMAT_IDX"); ("::QCursor", "SBK_QCURSOR_IDX");
   ("::QStandardItem::ItemType", "SBK_QSTANDARDITEM_ITEMTYPE_IDX");
   ("::QStandardItem", "SBK_QSTANDARDITEM_IDX");
   ("::QFont::StyleHint", "SBK_QFONT_STYLEHINT_IDX");
   ("::QFont::StyleStrategy", "SBK_QFONT_STYLESTRATEGY_IDX");
   ("::QFont::HintingPreference", "SBK_QFONT_HINTINGPREFERENCE_IDX");
   ("::QFont::Weight", "SBK_QFONT_WEIGHT_IDX");
   ("::QFont::Style", "SBK_QFONT_STYLE_IDX");
   ("::QFont::Stretch", "SBK_QFONT_STRETCH_IDX");
   ("::QFont::Capitalization", "SBK_QFONT_CAPITALIZATION_IDX");
   ("::QFont::SpacingType", "SBK_QFONT_SPACINGTYPE_IDX"); ("::QFont", "SBK_QFONT_IDX");
   ("::QTextCharFormat::VerticalAlignment", "SBK_QTEXTCHARFORMAT_VERTICALALIGNMENT_IDX");
   ("::QTextCharFormat::UnderlineStyle", "SBK_QTEXTCHARFORMAT_UNDERLINESTYLE_IDX");
   ("::QTextCharFormat::FontPropertiesInheritanceBehavior", "SBK_QTEXTCHARFORMAT_FONTPROPERTIESINHERITANCEBEHAVIOR_IDX");
   ("::QTextCharFormat", "SBK_QTEXTCHARFORMAT_IDX");
   ("::QTextTableCellFormat", "SBK_QTEXTTABLECELLFORMAT_IDX");
   ("::QTextImageFormat", "SBK_QTEXTIMAGEFORMAT_IDX");
   ("::QGradient::Type", "SBK_QGRADIENT_TYPE_IDX");
   ("::QGradient::Spread", "SBK_QGRADIENT_SPREAD_IDX");
   ("::QGradient::CoordinateMode", "SBK_QGRADIENT_COORDINATEMODE_IDX");
   ("::QGradient::InterpolationMode", "SBK_QGRADIENT_INTERPOLATIONMODE_IDX");
   ("::QGradient", "SBK_QGRADIENT_IDX");
   ("::QConicalGradient", "SBK_QCONICALGRADIENT_IDX");
   ("::QRadialGradient", "SBK_QRADIALGRADIENT_IDX");
   ("::QLinearGradient", "SBK_QLINEARGRADIENT_IDX"); ("::QBrush", "SBK_QBRUSH_IDX");
   ("::QPixmapCache", "SBK_QPIXMAPCACHE_IDX");
   ("::QPixmapCache::Key", "SBK_QPIXMAPCACHE_KEY_IDX");
   ("::QPictureIO", "SBK_QPICTUREIO_IDX");
   ("::QImageIOHandler::ImageOption", "SBK_QIMAGEIOHANDLER_IMAGEOPTION_IDX");
   ("::QImageIOHandler::Transformation", "SBK_QIMAGEIOHANDLER_TRANSFORMATION_IDX");
   ("::QFlags<QImageIOHandler::Transformation>", "SBK_QFLAGS_QIMAGEIOHANDLER_TRANSFORMATION__IDX");
   ("::QImageIOHandler", "SBK_QIMAGEIOHANDLER_IDX");
   ("::QTransform::TransformationType", "SBK_QTRANSFORM_TRANSFORMATIONTYPE_IDX");
   ("::QTransform", "SBK_QTRANSFORM_IDX");
   ("::QStaticText::PerformanceHint", "SBK_QSTATICTEXT_PERFORMANCEHINT_IDX");
   ("::QStaticText", "SBK_QSTATICTEXT_IDX");
   ("::QRawFont::AntialiasingType", "SBK_QRAWFONT_ANTIALIASINGTYPE_IDX");
   ("::QRawFont::LayoutFlag", "SBK_QRAWFONT_LAYOUTFLAG_IDX");
   ("::QFlags<QRawFont::LayoutFlag>", "SBK_QFLAGS_QRAWFONT_LAYOUTFLAG__IDX");
   ("::QRawFont", "SBK_QRAWFONT_IDX");
   ("::QPainterPathStroker", "SBK_QPAINTERPATHSTROKER_IDX");
   ("::QMatrix", "SBK_QMATRIX_IDX");
   ("::QPainterPath::ElementType", "SBK_QPAINTERPATH_ELEMENTTYPE_IDX");
   ("::QPainterPath", "SBK_QPAINTERPATH_IDX");
   ("::QPainterPath::Element", "SBK_QPAINTERPATH_ELEMENT_IDX");
   ("::QPolygonF", "SBK_QPOLYGONF_IDX"); ("::QPolygon", "SBK_QPOLYGON_IDX");
   ("::QPixelFormat::ColorModel", "SBK_QPIXELFORMAT_COLORMODEL_IDX");
   ("::QPixelFormat::AlphaUsage", "SBK_QPIXELFORMAT_ALPHAUSAGE_IDX");
   ("::QPixelFormat::AlphaPosition", "SBK_QPIXELFORMAT_ALPHAPOSITION_IDX");
   ("::QPixelFormat::AlphaPremultiplied", "SBK_QPIXELFORMAT_ALPHAPREMULTIPLIED_IDX");
   ("::QPixelFormat::TypeInterpretation", "SBK_QPIXELFORMAT_TYPEINTERPRETATION_IDX");
   ("::QPixelFormat::YUVLayout", "SBK_QPIXELFORMAT_YUVLAYOUT_IDX");
   ("::QPixelFormat::ByteOrder", "SBK_QPIXELFORMAT_BYTEORDER_IDX");
   ("::QPixelFormat", "SBK_QPIXELFORMAT_IDX");
   ("::QPaintDevice::PaintDeviceMetric", "SBK_QPAINTDEVICE_PAINTDEVICEMETRIC_IDX");
   ("::QPaintDevice", "SBK_QPAINTDEVICE_IDX");
   ("::QPagedPaintDevice::PageSize", "SBK_QPAGEDPAINTDEVICE_PAGESIZE_IDX");
   ("::QPagedPaintDevice", "SBK_QPAGEDPAINTDEVICE_IDX");
   ("::QPagedPaintDevice::Margins", "SBK_QPAGEDPAINTDEVICE_MARGINS_IDX");
   ("::QPicture", "SBK_QPICTURE_IDX");
   ("::QAccessibleEvent", "SBK_QACCESSIBLEEVENT_IDX");
   ("::QAccessibleInterface", "SBK_QACCESSIBLEINTERFACE_IDX");
   ("::QAccessible::Event", "SBK_QACCESSIBLE_EVENT_IDX");
   ("::QAccessible::Role", "SBK_QACCESSIBLE_ROLE_IDX");
   ("::QAccessible::Text", "SBK_QACCESSIBLE_TEXT_IDX");
   ("::QAccessible::RelationFlag", "SBK_QACCESSIBLE_RELATIONFLAG_IDX");
   ("::QAccessible::InterfaceType", "SBK_QACCESSIBLE_INTERFACETYPE_IDX");
   ("::QAccessible::TextBoundaryType", "SBK_QACCESSIBLE_TEXTBOUNDARYTYPE_IDX");
   ("::QAccessible", "SBK_QACCESSIBLE_IDX");
   ("::QAccessible::State", "SBK_QACCESSIBLE_STATE_IDX");
   ("::QTouchDevice::DeviceType", "SBK_QTOUCHDEVICE_DEVICETYPE_IDX");
   ("::QTouchDevice::CapabilityFlag", "SBK_QTOUCHDEVICE_CAPABILITYFLAG_IDX");
   ("::QFlags<QTouchDevice::CapabilityFlag>", "SBK_QFLAGS_QTOUCHDEVICE_CAPABILITYFLAG__IDX");
   ("::QTouchDevice", "SBK_QTOUCHDEVICE_IDX"); ("::QVector2D", "SBK_QVECTOR2D_IDX");
   ("::QKeySequence::StandardKey", "SBK_QKEYSEQUENCE_STANDARDKEY_IDX");
   ("::QKeySequence::SequenceFormat", "SBK_QKEYSEQUENCE_SEQUENCEFORMAT_IDX");
   ("::QKeySequence::SequenceMatch", "SBK_QKEYSEQUENCE_SEQUENCEMATCH_IDX");
   ("::QKeySequence", "SBK_QKEYSEQUENCE_IDX");
   ("::QColor::Spec", "SBK_QCOLOR_SPEC_IDX");
   ("::QColor::NameFormat", "SBK_QCOLOR_NAMEFORMAT_IDX");
   ("::QColor", "SBK_QCOLOR_IDX");
   ("::QTextLayout::CursorMode", "SBK_QTEXTLAYOUT_CURSORMODE_IDX");
   ("::QTextLayout", "SBK_QTEXTLAYOUT_IDX");
   ("::QTextLayout::FormatRange", "SBK_QTEXTLAYOUT_FORMATRANGE_IDX");
   ("::QPixmap", "SBK_QPIXMAP_IDX");
   ("::QImage::InvertMode", "SBK_QIMAGE_INVERTMODE_IDX");
   ("::QImage::Format", "SBK_QIMAGE_FORMAT_IDX"); ("::QImage", "SBK_QIMAGE_IDX");
   ("::QBitmap", "SBK_QBITMAP_IDX"); ("::QIcon::Mode", "SBK_QICON_MODE_IDX");
   ("::QIcon::State", "SBK_QICON_STATE_IDX"); ("::QIcon", "SBK_QICON_IDX");
   ("::QIconEngine::IconEngineHook", "SBK_QICONENGINE_ICONENGINEHOOK_IDX");
   ("::QIconEngine", "SBK_QICONENGINE_IDX");
   ("::QIconEngine::AvailableSizesArgument", "SBK_QICONENGINE_AVAILABLESIZESARGUMENT_IDX");
   ("::QPageLayout::Unit", "SBK_QPAGELAYOUT_UNIT_IDX");
   ("::QPageLayout::Orientation", "SBK_QPAGELAYOUT_ORIENTATION_IDX");
   ("::QPageLayout::Mode", "SBK_QPAGELAYOUT_MODE_IDX");
   ("::QPageLayout", "SBK_QPAGELAYOUT_IDX");
   ("::QPainter::RenderHint", "SBK_QPAINTER_RENDERHINT_IDX");
   ("::QFlags<QPainter::RenderHint>", "SBK_QFLAGS_QPAINTER_RENDERHINT__IDX");
   ("::QPainter::PixmapFragmentHint", "SBK_QPAINTER_PIXMAPFRAGMENTHINT_IDX");
   ("::QFlags<QPainter::PixmapFragmentHint>", "SBK_QFLAGS_QPAINTER_PIXMAPFRAGMENTHINT__IDX");
   ("::QPainter::CompositionMode", "SBK_QPAINTER_COMPOSITIONMODE_IDX");
   ("::QPainter", "SBK_QPAINTER_IDX");
   ("::QPainter::PixmapFragment", "SBK_QPAINTER_PIXMAPFRAGMENT_IDX");
   ("::QBackingStore", "SBK_QBACKINGSTORE_IDX");
   ("::QWindowStateChangeEvent", "SBK_QWINDOWSTATECHANGEEVENT_IDX");
   ("::QShortcutEvent", "SBK_QSHORTCUTEVENT_IDX");
   ("::QDropEvent", "SBK_QDROPEVENT_IDX");
   ("::QDragMoveEvent", "SBK_QDRAGMOVEEVENT_IDX");
   ("::QDragEnterEvent", "SBK_QDRAGENTEREVENT_IDX");
   ("::QInputMethodEvent::AttributeType", "SBK_QINPUTMETHODEVENT_ATTRIBUTETYPE_IDX");
   ("::QInputMethodEvent", "SBK_QINPUTMETHODEVENT_IDX");
   ("::QInputMethodEvent::Attribute", "SBK_QINPUTMETHODEVENT_ATTRIBUTE_IDX");
   ("::QCloseEvent", "SBK_QCLOSEEVENT_IDX");
   ("::QStatusTipEvent", "SBK_QSTATUSTIPEVENT_IDX");
   ("::QResizeEvent", "SBK_QRESIZEEVENT_IDX"); ("::QHelpEvent", "SBK_QHELPEVENT_IDX");
   ("::QExposeEvent", "SBK_QEXPOSEEVENT_IDX");
   ("::QDragLeaveEvent", "SBK_QDRAGLEAVEEVENT_IDX");
   ("::QMoveEvent", "SBK_QMOVEEVENT_IDX"); ("::QHideEvent", "SBK_QHIDEEVENT_IDX");
   ("::QShowEvent", "SBK_QSHOWEVENT_IDX");
   ("::QIconDragEvent", "SBK_QICONDRAGEVENT_IDX");
   ("::QEnterEvent", "SBK_QENTEREVENT_IDX"); ("::QPaintEvent", "SBK_QPAINTEVENT_IDX");
   ("::QFocusEvent", "SBK_QFOCUSEVENT_IDX"); ("::QInputEvent", "SBK_QINPUTEVENT_IDX");
   ("::QKeyEvent", "SBK_QKEYEVENT_IDX");
   ("::QTabletEvent::TabletDevice", "SBK_QTABLETEVENT_TABLETDEVICE_IDX");
   ("::QTabletEvent::PointerType", "SBK_QTABLETEVENT_POINTERTYPE_IDX");
   ("::QTabletEvent", "SBK_QTABLETEVENT_IDX");
   ("::QContextMenuEvent::Reason", "SBK_QCONTEXTMENUEVENT_REASON_IDX");
   ("::QContextMenuEvent", "SBK_QCONTEXTMENUEVENT_IDX");
   ("::QTouchEvent", "SBK_QTOUCHEVENT_IDX");
   ("::QTouchEvent::TouchPoint::InfoFlag", "SBK_QTOUCHEVENT_TOUCHPOINT_INFOFLAG_IDX");
   ("::QFlags<QTouchEvent::TouchPoint::InfoFlag>", "SBK_QFLAGS_QTOUCHEVENT_TOUCHPOINT_INFOFLAG__IDX");
   ("::QTouchEvent::TouchPoint", "SBK_QTOUCHEVENT_TOUCHPOINT_IDX");
   ("::QWheelEvent", "SBK_QWHEELEVENT_IDX"); ("::QHoverEvent", "SBK_QHOVEREVENT_IDX");
   ("::QMouseEvent", "SBK_QMOUSEEVENT_IDX");
   ("::QToolBarChangeEvent", "SBK_QTOOLBARCHANGEEVENT_IDX");
   ("::QFileOpenEvent", "SBK_QFILEOPENEVENT_IDX");
   ("::QActionEvent", "SBK_QACTIONEVENT_IDX");
   ("::QWhatsThisClickedEvent", "SBK_QWHATSTHISCLICKEDEVENT_IDX");
   ("::QRegion::RegionType", "SBK_QREGION_REGIONTYPE_IDX");
   ("::QRegion", "SBK_QREGION_IDX");
   ("::QOpenGLContext::OpenGLModuleType", "SBK_QOPENGLCONTEXT_OPENGLMODULETYPE_IDX");
   ("::QOpenGLContext", "SBK_QOPENGLCONTEXT_IDX");
   ("::QSessionManager::RestartHint", "SBK_QSESSIONMANAGER_RESTARTHINT_IDX");
   ("::QSessionManager", "SBK_QSESSIONMANAGER_IDX"); ("::QScreen", "SBK_QSCREEN_IDX");
   ("::QClipboard::Mode", "SBK_QCLIPBOARD_MODE_IDX");
   ("::QClipboard", "SBK_QCLIPBOARD_IDX");
   ("::QValidator::State", "SBK_QVALIDATOR_STATE_IDX");
   ("::QValidator", "SBK_QVALIDATOR_IDX");
   ("::QIntValidator", "SBK_QINTVALIDATOR_IDX");
   ("::QRegExpValidator", "SBK_QREGEXPVALIDATOR_IDX");
   ("::QDoubleValidator::Notation", "SBK_QDOUBLEVALIDATOR_NOTATION_IDX");
   ("::QDoubleValidator", "SBK_QDOUBLEVALIDATOR_IDX"); ("::QDrag", "SBK_QDRAG_IDX");
   ("::QSyntaxHighlighter", "SBK_QSYNTAXHIGHLIGHTER_IDX");
   ("::QStyleHints", "SBK_QSTYLEHINTS_IDX");
   ("::QPyTextObject", "SBK_QPYTEXTOBJECT_IDX");
   ("::QOpenGLShader::ShaderTypeBit", "SBK_QOPENGLSHADER_SHADERTYPEBIT_IDX");
   ("::QFlags<QOpenGLShader::ShaderTypeBit>", "SBK_QFLAGS_QOPENGLSHADER_SHADERTYPEBIT__IDX");
   ("::QOpenGLShader", "SBK_QOPENGLSHADER_IDX");
   ("::QPdfWriter", "SBK_QPDFWRITER_IDX");
   ("::QStandardItemModel", "SBK_QSTANDARDITEMMODEL_IDX");
   ("::QGuiApplication", "SBK_QGUIAPPLICATION_IDX");
   ("::QTextObject", "SBK_QTEXTOBJECT_IDX"); ("::QTextFrame", "SBK_QTEXTFRAME_IDX");
   ("::QTextTable", "SBK_QTEXTTABLE_IDX");
   ("::QTextFrame::iterator", "SBK_QTEXTFRAME_ITERATOR_IDX");
   ("::QTextBlockGroup", "SBK_QTEXTBLOCKGROUP_IDX");
   ("::QTextList", "SBK_QTEXTLIST_IDX");
   ("::QAbstractTextDocumentLayout", "SBK_QABSTRACTTEXTDOCUMENTLAYOUT_IDX");
   ("::QAbstractTextDocumentLayout::PaintContext", "SBK_QABSTRACTTEXTDOCUMENTLAYOUT_PAINTCONTEXT_IDX");
   ("::QAbstractTextDocumentLayout::Selection", "SBK_QABSTRACTTEXTDOCUMENTLAYOUT_SELECTION_IDX");
   ("::QWindow::Visibility", "SBK_QWINDOW_VISIBILITY_IDX");
   ("::QWindow::AncestorMode", "SBK_QWINDOW_ANCESTORMODE_IDX");
   ("::QWindow", "SBK_QWINDOW_IDX");
   ("::QPaintDeviceWindow", "SBK_QPAINTDEVICEWINDOW_IDX");
   ("::QRasterWindow", "SBK_QRASTERWINDOW_IDX");
   ("::QMovie::MovieState", "SBK_QMOVIE_MOVIESTATE_IDX");
   ("::QMovie::CacheMode", "SBK_QMOVIE_CACHEMODE_IDX"); ("::QMovie", "SBK_QMOVIE_IDX");
   ("::QImageWriter::ImageWriterError", "SBK_QIMAGEWRITER_IMAGEWRITERERROR_IDX");
   ("::QImageWriter", "SBK_QIMAGEWRITER_IDX");
   ("::QImageReader::ImageReaderError", "SBK_QIMAGEREADER_IMAGEREADERERROR_IDX");
   ("::QImageReader", "SBK_QIMAGEREADER_IDX");
   ("::QTextDocumentWriter", "SBK_QTEXTDOCUMENTWRITER_IDX");
   ("::QTextDocumentFragment", "SBK_QTEXTDOCUMENTFRAGMENT_IDX");
   ("::QTextDocument::MetaInformation", "SBK_QTEXTDOCUMENT_METAINFORMATION_IDX");
   ("::QTextDocument::FindFlag", "SBK_QTEXTDOCUMENT_FINDFLAG_IDX");
   ("::QFlags<QTextDocument::FindFlag>", "SBK_QFLAGS_QTEXTDOCUMENT_FINDFLAG__IDX");
   ("::QTextDocument::ResourceType", "SBK_QTEXTDOCUMENT_RESOURCETYPE_IDX");
   ("::QTextDocument::Stacks", "SBK_QTEXTDOCUMENT_STACKS_IDX");
   ("::QTextDocument", "SBK_QTEXTDOCUMENT_IDX")].

(** What the preprocessor puts for a macro of the two index blocks. *)
Definition expand (macro : string) : option Z :=
  snd <$> List.find (λ d, String.eqb (fst d) macro)
            (QtGui.type_indices ++ QtGui.converter_indices).

(** The slot [SbkType< T >()] reads. *)
Definition SbkType_index (T : string) : option Z :=
  match List.find (λ s, String.eqb (fst s) T) SbkType_specializations with
  | Some s => expand (snd s)
  | None => None
  end.

(** [SbkType< T >()] over a table: [None] where the header has no
    specialization for [T] or the read is out of the table. *)
Definition SbkType {A : Type} (SbkPySide2_QtGuiTypes : list A) (T : string)
    : option A :=
  match SbkType_index T with
  | Some index => QtGui.lookup SbkPySide2_QtGuiTypes index
  | None => None
  end.

(** Every specialized type with the slot it reads. *)
Definition slots : list (string * option Z) :=
  (λ s, (fst s, SbkType_index (fst s))) <$> SbkType_specializations.

End Shiboken.

(** ** More observations of a run *)

(** How often the function called [name] was called. *)
Definition calls (name : string) (t : list event) : nat :=
  length (List.filter (λ e, String.eqb (callee e) name) t).

(** Characters 1 to 127. *)
Definition ascii_only (l : list Z) : bool :=
  forallb (λ c, (0 <? c) && (c <? 0x80)) l.

Module WinChecks.

(** The five checks of [Win.main] before the one for [python27.dll] pass. *)
Record checks_pass (w : World) (env : gmap (list Z) (list Z))
    (pathvar : list Z) : Prop := {
  module_file_name : fst (w_GetModuleFileNameW w MAX_PATH) ≠ 0;
  file_spec_removed :
    fst (w_PathRemoveFileSpecW w (snd (w_GetModuleFileNameW w MAX_PATH))) ≠ 0;
  bin_directory :
    ∃ st_mode, w_wstat w (c_str (WinRun.bin_dir w)) = Some st_mode ∧
               Z.land st_mode S_IFDIR ≠ 0;
  path_variable : env !! wide "PATH" = Some pathvar;
  memory_allocated : w_malloc w ((len pathvar + 1) * 2) = true
}.

(** What an alert text of [Win.main] says went wrong. *)
Definition diagnosis (w : World) (argc : Z) (argv : list (list Z))
    (env : gmap (list Z) (list Z)) (lpText : string) : Prop :=
  if String.eqb lpText "Could not start the application:
GetModuleFileNameW returned a bogus value."
  then fst (w_GetModuleFileNameW w MAX_PATH) = 0
  else if String.eqb lpText "Could not start the application:
PathRemoveFileSpecW returned a bogus value."
  then fst (w_PathRemoveFileSpecW w (snd (w_GetModuleFileNameW w MAX_PATH))) = 0
  else if String.eqb lpText "Could not start the application:
The 'bin' directory seems to be missing."
  then w_wstat w (c_str (WinRun.bin_dir w)) = None
  else if String.eqb lpText "Could not start the application:
The 'bin' is not a valid directory."
  then ∃ st_mode, w_wstat w (c_str (WinRun.bin_dir w)) = Some st_mode ∧
                  Z.land st_mode S_IFDIR = 0
  else if String.eqb lpText "Could not start the application.
Could not get the PATH environment."
  then env !! wide "PATH" = None
  else if String.eqb lpText "Could not start the application.
Could not allocate memory."
  then ∃ pathvar, env !! wide "PATH" = Some pathvar ∧
                  w_malloc w ((len pathvar + 1) * 2) = false
  else if String.eqb lpText "Could not start the application:
The 'python27.dll' seems to be missing."
  then w_wstat w (c_str (WinRun.pydll w)) = None
  else if String.eqb lpText "Could not start the application.
An internal Python error occured."
  then ∃ pathvar cmd,
         env !! wide "PATH" = Some pathvar ∧
         WinRun.converted w
           (Win.wcmd (WinRun.modified_path w pathvar) (WinRun.path w)) = Ret cmd ∧
         WinRun.answer w argc argv env pathvar cmd = PyReturns (-1)
  else False.

End WinChecks.

(** The installation without its [python27.dll]. *)
Definition without_dll : World := {|
  w_GetModuleFileNameW := w_GetModuleFileNameW installed;
  w_PathRemoveFileSpecW := w_PathRemoveFileSpecW installed;
  w_wstat := λ path,
    if bool_decide (path = wide "C:\app\bin") then Some 0x41FF else None;
  w_malloc := w_malloc installed;
  w_WideCharToMultiByte := w_WideCharToMultiByte installed;
  w_PyRun_SimpleString := w_PyRun_SimpleString installed
|}.

(** The installation with a conversion API whose size query fails. *)
Definition size_query_fails : World := {|
  w_GetModuleFileNameW := w_GetModuleFileNameW installed;
  w_PathRemoveFileSpecW := w_PathRemoveFileSpecW installed;
  w_wstat := w_wstat installed;
  w_malloc := w_malloc installed;
  w_WideCharToMultiByte := λ _ _, (0, []);
  w_PyRun_SimpleString := w_PyRun_SimpleString installed
|}.

(** * Proofs *)

(** ** Strings read up to their terminator *)

Lemma len_nonneg l : 0 ≤ len l.
Proof. unfold len. lia. Qed.

Lemma nul_free_app a b : nul_free (a ++ b) = nul_free a && nul_free b.
Proof. apply forallb_app. Qed.

Lemma nul_free_c_str l : nul_free (c_str l) = true.
Proof.
  induction l as [|c rest IH]; [reflexivity|].
  cbn [c_str]. destruct (c =? 0) eqn:Hc; [reflexivity|].
  cbn. rewrite Hc. exact IH.
Qed.

Lemma c_str_app a b : nul_free a = true → c_str (a ++ b) = a ++ c_str b.
Proof.
  induction a as [|c rest IH]; [reflexivity|].
  cbn. destruct (c =? 0); [discriminate|].
  cbn. intros H. now rewrite IH.
Qed.

Lemma c_str_nul_free l : nul_free l = true → c_str l = l.
Proof.
  intros H. rewrite <- (app_nil_r l) at 1.
  rewrite c_str_app by exact H. apply app_nil_r.
Qed.

Example c_str_stops_at_nul : c_str [97; 98; 0; 99] = [97; 98].
Proof. reflexivity. Qed.

(** ** The encoder *)

Example encode_e_acute : Utf8.encode [0xE9] = [0xC3; 0xA9].
Proof. reflexivity. Qed.

Example encode_euro_sign : Utf8.encode [0x20AC] = [0xE2; 0x82; 0xAC].
Proof. reflexivity. Qed.

Example encode_surrogate_pair :
  Utf8.encode [0xD83D; 0xDE00] = [0xF0; 0x9F; 0x98; 0x80].
Proof. reflexivity. Qed.

Example encode_lone_surrogate : Utf8.encode [0xD83D; 0x41] = [0xEF; 0xBF; 0xBD; 0x41].
Proof. reflexivity. Qed.

(** Induction that peels one or two characters, as [Utf8.encode] does. *)
Lemma pairs_ind {A : Type} (P : list A → Prop) :
  P [] → (∀ x, P [x]) → (∀ x y l, P l → P (y :: l) → P (x :: y :: l)) →
  ∀ l, P l.
Proof.
  intros Hnil Hone Hstep l.
  enough (P l ∧ ∀ x, P (x :: l)) by tauto.
  induction l as [|y l [IH1 IH2]]; split; auto.
Qed.

Lemma lor_nonzero k x : k ≠ 0 → Z.lor k x ≠ 0.
Proof. intros Hk H. apply Z.lor_eq_0_iff in H. tauto. Qed.

Lemma encode_code_point_nul_free c :
  c ≠ 0 → nul_free (Utf8.encode_code_point c) = true.
Proof.
  intros Hc. unfold Utf8.encode_code_point, Utf8.continuation.
  repeat case_match; cbn;
    repeat match goal with
    | |- context [?a =? 0] =>
        let E := fresh in
        destruct (Z.eqb_spec a 0) as [E|_];
        [ exfalso; first [ exact (Hc E) | revert E; apply lor_nonzero; discriminate ] | ]
    end; reflexivity.
Qed.

Lemma encode_one u :
  Utf8.encode [u] =
    if Utf8.is_high_surrogate u
    then Utf8.encode_code_point Utf8.replacement_character
    else if Utf8.is_low_surrogate u
    then Utf8.encode_code_point Utf8.replacement_character ++ []
    else Utf8.encode_code_point u ++ [].
Proof. reflexivity. Qed.

Lemma encode_two u lo rest :
  Utf8.encode (u :: lo :: rest) =
    if Utf8.is_high_surrogate u then
      if Utf8.is_low_surrogate lo
      then Utf8.encode_code_point (Utf8.pair_code_point u lo) ++ Utf8.encode rest
      else Utf8.encode_code_point Utf8.replacement_character ++ Utf8.encode (lo :: rest)
    else if Utf8.is_low_surrogate u then
      Utf8.encode_code_point Utf8.replacement_character ++ Utf8.encode (lo :: rest)
    else Utf8.encode_code_point u ++ Utf8.encode (lo :: rest).
Proof. reflexivity. Qed.

(** A string without NUL is encoded without NUL. *)
Lemma encode_nul_free s : nul_free s = true → nul_free (Utf8.encode s) = true.
Proof.
  induction s as [|u|u lo rest IH1 IH2] using pairs_ind; [reflexivity| |].
  - intros H. cbn [nul_free forallb] in H. apply andb_true_iff in H as [Hu _].
    apply negb_true_iff, Z.eqb_neq in Hu.
    change (Utf8.encode [u]) with
      (if Utf8.is_high_surrogate u
       then Utf8.encode_code_point Utf8.replacement_character
       else if Utf8.is_low_surrogate u
       then Utf8.encode_code_point Utf8.replacement_character ++ []
       else Utf8.encode_code_point u ++ []).
    repeat case_match; rewrite ?app_nil_r;
      apply encode_code_point_nul_free; (done || exact Hu).
  - intros H. pose proof H as H'.
    cbn [nul_free forallb] in H. apply andb_true_iff in H as [Hu Hrest].
    apply negb_true_iff, Z.eqb_neq in Hu.
    change (forallb _ (lo :: rest)) with (nul_free (lo :: rest)) in Hrest.
    pose proof Hrest as Hrest'.
    cbn [nul_free forallb] in Hrest'. apply andb_true_iff in Hrest' as [_ Hrest'].
    change (Utf8.encode (u :: lo :: rest)) with
      (if Utf8.is_high_surrogate u then
         if Utf8.is_low_surrogate lo
         then Utf8.encode_code_point (Utf8.pair_code_point u lo) ++ Utf8.encode rest
         else Utf8.encode_code_point Utf8.replacement_character ++ Utf8.encode (lo :: rest)
       else if Utf8.is_low_surrogate u then
         Utf8.encode_code_point Utf8.replacement_character ++ Utf8.encode (lo :: rest)
       else Utf8.encode_code_point u ++ Utf8.encode (lo :: rest)).
    destruct (Utf8.is_high_surrogate u) eqn:Hh; [destruct (Utf8.is_low_surrogate lo) eqn:Hl|
      destruct (Utf8.is_low_surrogate u)];
      rewrite nul_free_app, ?IH1, ?IH2 by assumption;
      rewrite encode_code_point_nul_free; try done.
    unfold Utf8.is_high_surrogate, Utf8.is_low_surrogate, Utf8.pair_code_point in *.
    lia.
Qed.

(** A character that is no low surrogate starts a new code point, whatever
    stands before it. *)
Lemma encode_app a x t :
  Utf8.is_low_surrogate x = false →
  Utf8.encode (a ++ x :: t) = Utf8.encode a ++ Utf8.encode (x :: t).
Proof.
  intros Hx.
  induction a as [|u|u lo rest IH1 IH2] using pairs_ind; [reflexivity| |].
  - change ([u] ++ x :: t) with (u :: x :: t).
    rewrite encode_two, encode_one, Hx.
    repeat case_match; rewrite ?app_nil_r; reflexivity.
  - change ((u :: lo :: rest) ++ x :: t) with (u :: lo :: (rest ++ x :: t)).
    rewrite !encode_two.
    change (lo :: rest ++ x :: t) with ((lo :: rest) ++ x :: t).
    rewrite IH1, IH2.
    repeat case_match; rewrite ?app_assoc; reflexivity.
Qed.

(** ** What [WstrToUtf8Str] returns *)

Lemma converted_unfold w wstr :
  WinRun.converted w wstr =
    if Win.empty wstr then Ret []
    else if 0 <? fst (w_WideCharToMultiByte w (c_str wstr) 0) then
      if negb (fst (w_WideCharToMultiByte w (c_str wstr)
                      (len (replicate (Z.to_nat (fst (w_WideCharToMultiByte w (c_str wstr) 0))) 0))) =? 0)
      then Ret (c_str (store
                  (snd (w_WideCharToMultiByte w (c_str wstr)
                      (len (replicate (Z.to_nat (fst (w_WideCharToMultiByte w (c_str wstr) 0))) 0))))
                  (replicate (Z.to_nat (fst (w_WideCharToMultiByte w (c_str wstr) 0))) 0)))
      else Throw runtime_error
    else Ret [].
Proof.
  unfold WinRun.converted, Win.WstrToUtf8Str, WideCharToMultiByte, call, throw, boot,
    mbind, mret, Run_bind, Run_ret.
  destruct (Win.empty wstr); [reflexivity|]. cbn [negb fst snd].
  destruct (0 <? _); [|reflexivity].
  destruct (negb _); reflexivity.
Qed.

Lemma WstrToUtf8Str_result w wstr p :
  fst (Win.WstrToUtf8Str w wstr p) = WinRun.converted w wstr.
Proof.
  unfold WinRun.converted, Win.WstrToUtf8Str, WideCharToMultiByte, call, throw, boot,
    mbind, mret, Run_bind, Run_ret.
  destruct (Win.empty wstr); [reflexivity|]. cbn [negb fst snd].
  destruct (0 <? _); [|reflexivity].
  destruct (negb _); reflexivity.
Qed.

Lemma len_replicate n : 0 ≤ n → len (replicate (Z.to_nat n) 0) = n.
Proof. intros. unfold len. rewrite length_replicate. lia. Qed.

Lemma store_full written n :
  n = length written → store written (replicate n 0) = written.
Proof.
  intros ->. unfold store. rewrite length_replicate.
  rewrite firstn_all, drop_replicate, Nat.sub_diag. apply app_nil_r.
Qed.

(** When the API answers as documented, the result is the encoding of the
    input up to its first NUL. *)
Lemma converted_faithful w wstr :
  Win.empty wstr = false → WinRun.faithful w (c_str wstr) →
  WinRun.converted w wstr = Ret (Utf8.encode (c_str wstr)).
Proof.
  intros Hne [Hsize Hwrite]. rewrite converted_unfold, Hne, Hsize.
  assert (Hpos : 0 < len (Utf8.encode (c_str wstr) ++ [0])).
  { unfold len. rewrite length_app. cbn [length]. lia. }
  rewrite len_replicate by lia. rewrite Hwrite. cbn [fst snd].
  destruct (Z.ltb_spec 0 (len (Utf8.encode (c_str wstr) ++ [0]))); [|lia].
  destruct (Z.eqb_spec (len (Utf8.encode (c_str wstr) ++ [0])) 0); [lia|].
  cbn [negb]. rewrite store_full by (unfold len; lia).
  rewrite c_str_app by apply encode_nul_free, nul_free_c_str.
  cbn. now rewrite app_nil_r.
Qed.

Lemma wcmd_not_empty mp path : Win.empty (Win.wcmd mp path) = false.
Proof. reflexivity. Qed.

Lemma wcmd_nul_free w pathvar :
  nul_free (Win.wcmd (WinRun.modified_path w pathvar) (WinRun.path w)) = true.
Proof.
  unfold Win.wcmd, WinRun.modified_path, WinRun.bin_dir.
  rewrite !nul_free_app, !nul_free_c_str. reflexivity.
Qed.

Lemma put_variable_value varname value env :
  Win.empty value = false →
  put_variable varname value env = <[varname := value]> env.
Proof. now destruct value. Qed.

Lemma name_with_backslash_differs (name key : list Z) :
  In 92 name → forallb (λ c, negb (c =? 92)) key = true → name ≠ key.
Proof.
  intros Hin Hkey ->. rewrite forallb_forall in Hkey.
  specialize (Hkey 92 Hin). discriminate.
Qed.

Lemma pythonpath_has_backslash path :
  In 92 (c_str (c_str path ++ wide "\shared")).
Proof.
  rewrite c_str_app by apply nul_free_c_str.
  apply in_or_app. right. left. reflexivity.
Qed.

Lemma modified_path_has_backslash path pathvar :
  In 92 (c_str ((c_str path ++ wide "\bin") ++ wide ";" ++ c_str pathvar)).
Proof.
  rewrite c_str_app by (rewrite nul_free_app, nul_free_c_str; reflexivity).
  apply in_or_app. left. apply in_or_app. right. left. reflexivity.
Qed.

(** ** Running a launcher symbolically

    [exec] replaces the run in the goal by its outcome: it unfolds [main],
    evaluates what is closed and case-splits on each answer of the world in
    the order [main] asks for it.  One goal is left per path through
    [main], with the answers that select the path as hypotheses. *)

Ltac unfold_calls H :=
  unfold Win.main, Osx.main, Win.WstrToUtf8Str, GetModuleFileNameW,
    PathRemoveFileSpecW, _wstat, _wgetenv_s, malloc, _wputenv_s, MessageBox,
    CFUserNotificationDisplayAlert, WideCharToMultiByte, Py_SetProgramName,
    PyEval_InitThreads, Py_Initialize, PySys_SetArgv, PyRun_SimpleString,
    Py_Finalize, get_environ, set_environ, get_info_st_mode, set_info_st_mode,
    get_sys_argv, when, call, exit, throw, diverge, boot, mbind, mret, Run_bind,
    Run_ret in H.

Ltac head_scrutinee t :=
  lazymatch t with
  | match ?x with _ => _ end =>
      lazymatch x with
      | context [match _ with _ => _ end] => head_scrutinee x
      | _ => constr:(x)
      end
  | ?f _ => head_scrutinee f
  end.

Ltac split_on x H :=
  lazymatch goal with
  | E : x = _ |- _ => rewrite E in H
  | _ => destruct x eqn:?
  end.

Ltac exec_step H :=
  cbn [fst snd environ info_st_mode trace negb app sys_argv] in H;
  rewrite ?Z.leb_refl, ?wcmd_not_empty in H;
  lazymatch type of H with
  | _ = ?t =>
      let x := head_scrutinee t in
      lazymatch type of x with
      | prod _ _ => rewrite (surjective_pairing x) in H
      | bool =>
          let v := eval vm_compute in x in
          lazymatch v with
          | true => change x with true in H
          | false => change x with false in H
          | _ => split_on x H
          end
      | _ => split_on x H
      end
  end.

Ltac exec_term t :=
  let r := fresh "run" in
  let H := fresh "Hrun" in
  remember t as r eqn:H;
  unfold_calls H; repeat exec_step H;
  cbn [fst snd environ info_st_mode trace negb app sys_argv] in H;
  subst r; cbn [fst snd environ info_st_mode trace].

Ltac exec :=
  cbv zeta;
  match goal with
  | |- context [Win.main ?w ?c ?v ?p] => exec_term (Win.main w c v p)
  | |- context [Osx.main ?w ?c ?v ?p] => exec_term (Osx.main w c v p)
  end.

Ltac tidy :=
  repeat match goal with
  | H : negb _ = true |- _ => apply negb_true_iff in H
  | H : negb _ = false |- _ => apply negb_false_iff in H
  | H : (_ =? _) = true |- _ => apply Z.eqb_eq in H
  | H : (_ =? _) = false |- _ => apply Z.eqb_neq in H
  | H : (_ <? _) = true |- _ => apply Z.ltb_lt in H
  | H : (_ <? _) = false |- _ => apply Z.ltb_ge in H
  end.

Ltac unfold_run_values :=
  unfold WinRun.answer, WinRun.environment_written, WinRun.modified_path,
    WinRun.pydll, WinRun.pythonpath, WinRun.bin_dir, WinRun.path in *.

Ltac same_pathvar :=
  repeat match goal with
  | H1 : ?x = Some ?a, H2 : ?x = Some ?b |- _ =>
      is_var a; is_var b;
      tryif constr_eq a b then fail else (assert (a = b) by congruence; subst a)
  end.

Ltac absurd_facts :=
  first
    [ congruence
    | lia
    | match goal with
      | H : len ?l + 1 = 0 |- _ => pose proof (len_nonneg l); lia
      end ].

Ltac refute_early Hf :=
  exfalso; destruct Hf; unfold_run_values; tidy; congruence.

Ltac refute Hf :=
  exfalso;
  destruct Hf as [Hf| |? ? ? Hconv ?];
  [ destruct Hf; unfold_run_values; tidy; congruence
  | unfold_run_values; tidy; congruence
  | rewrite converted_unfold, wcmd_not_empty in Hconv; unfold_run_values;
    same_pathvar; repeat case_match; tidy; absurd_facts ].

(** On a path where the conversion returned, replace the command by what
    the path computed. *)
Ltac command_of Hconv :=
  rewrite converted_unfold, wcmd_not_empty in Hconv; unfold_run_values;
  repeat match goal with
         | H : _ = true |- _ => progress (rewrite ?H in Hconv; rewrite ?H)
         | H : _ = false |- _ => progress (rewrite ?H in Hconv; rewrite ?H)
         end;
  match type of Hconv with
  | Ret ?a = Ret ?cmd => assert (cmd = a) as -> by congruence
  end.

Ltac refute_success :=
  exfalso; unfold_run_values;
  match goal with
  | Hconv : WinRun.converted _ _ = _ |- _ =>
      rewrite converted_unfold, wcmd_not_empty in Hconv
  end;
  unfold_run_values; same_pathvar; repeat case_match; tidy; absurd_facts.

(** ** Facts about the concrete installation *)

Lemma installed_setup_succeeds :
  WinRun.setup_succeeds installed windows_environment (wide "C:\Windows") startup_command.
Proof.
  constructor.
  - vm_compute. discriminate.
  - vm_compute. discriminate.
  - eexists. split; [vm_compute; reflexivity | vm_compute; discriminate].
  - vm_compute. reflexivity.
  - reflexivity.
  - eexists. vm_compute. reflexivity.
  - vm_compute. reflexivity.
Defined.

Lemma installed_conversion_faithful :
  WinRun.faithful installed
    (Win.wcmd (WinRun.modified_path installed (wide "C:\Windows")) (WinRun.path installed)).
Proof. split; vm_compute; reflexivity. Defined.

Example environment_found_by_interpreter :
  inherited_by_interpreter !! wide "PATH" = Some (wide "C:\Windows") ∧
  inherited_by_interpreter !! wide "PYTHONPATH" = None ∧
  inherited_by_interpreter !! wide "C:\app\bin;C:\Windows" = Some (wide "PATH") ∧
  inherited_by_interpreter !! wide "C:\app\shared" = Some (wide "PYTHONPATH").
Proof. split_and!; vm_compute; reflexivity. Qed.

(** ** No call is made twice, and the calls come in source order *)

Lemma stat_calls_differ path :
  Ev_wstat (c_str (c_str path ++ wide "\bin"))
    ≠ Ev_wstat (c_str (c_str path ++ wide "\python27.dll")).
Proof.
  rewrite !c_str_app by apply nul_free_c_str.
  intros [= H]. apply app_inv_head in H. vm_compute in H. discriminate H.
Qed.

Lemma lookup_calls_differ l varname :
  Ev_wgetenv_s 0 varname ≠ Ev_wgetenv_s (len l + 1) varname.
Proof. intros [= H]. pose proof (len_nonneg l). lia. Qed.

Lemma write_calls_differ a b :
  Ev_wputenv_s a (wide "PATH") ≠ Ev_wputenv_s b (wide "PYTHONPATH").
Proof. intros [=]. Qed.

Lemma conversion_calls_differ src size :
  (0 <? size) = true →
  EvWideCharToMultiByte src 0
    ≠ EvWideCharToMultiByte src (len (replicate (Z.to_nat size) 0)).
Proof.
  intros Hsize [= H]. apply Z.ltb_lt in Hsize.
  rewrite len_replicate in H by lia. lia.
Qed.

Ltac distinct_events H :=
  first
    [ discriminate H
    | exact (stat_calls_differ _ H)
    | exact (lookup_calls_differ _ _ H)
    | exact (write_calls_differ _ _ H)
    | eapply conversion_calls_differ; [|exact H]; assumption ].

Ltac not_called_before :=
  intros Hin;
  repeat (apply elem_of_cons in Hin as [Hin|Hin]; [distinct_events Hin|]);
  by apply elem_of_nil in Hin.

Ltac no_call_twice :=
  repeat (apply NoDup_cons_2; [not_called_before|]); apply NoDup_nil_2.

Lemma win_no_call_twice w argc argv env :
  NoDup (trace (snd (Win.main w argc argv (boot env)))).
Proof. exec; no_call_twice. Qed.

Lemma osx_no_call_twice w argc argv env :
  NoDup (trace (snd (Osx.main w argc argv (boot env)))).
Proof. exec; no_call_twice. Qed.

Ltac in_source_order := first [left; by eexists | right; by eexists].

Ltac rewrite_answer :=
  cbn [interpreter_answer inherited_environments commands omap list_omap];
  repeat match goal with
         | H : w_PyRun_SimpleString _ _ _ _ _ = _ |- _ => rewrite H
         end.

Lemma win_steps_in_source_order w argc argv env :
  steps (trace (snd (Win.main w argc argv (boot env)))) `prefix_of` Win_script ∨
  steps (trace (snd (Win.main w argc argv (boot env))))
    `prefix_of` Win_script_one_conversion.
Proof. exec; in_source_order. Qed.

(** * The claims *)

(** C1.  What the interpreter finds when it starts: the two [_wputenv_s]
    calls of the Windows launcher leave PATH and PYTHONPATH as they were.
    Each call passes the new value where the name belongs and the name where
    the value belongs, so the variable written is named after the path and
    holds the text "PATH" (or "PYTHONPATH"). *)
Theorem interpreter_inherits_PATH_unchanged w argc argv env inherited :
  In inherited (inherited_environments (trace (snd (Win.main w argc argv (boot env))))) →
  inherited !! wide "PATH" = env !! wide "PATH" ∧
  inherited !! wide "PYTHONPATH" = env !! wide "PYTHONPATH".
Proof.
  exec.
  all: cbn [inherited_environments omap list_omap In];
    intros Hin; try contradiction; destruct Hin as [<-|[]].
  all: rewrite !put_variable_value by reflexivity.
  all: rewrite !lookup_insert_ne
         by (apply name_with_backslash_differs;
             [ first [ apply pythonpath_has_backslash
                     | apply modified_path_has_backslash ]
             | reflexivity ]).
  all: by split.
Qed.

Lemma interpreter_inherits_PATH_unchanged_witness :
  In inherited_by_interpreter
    (inherited_environments
       (trace (snd (Win.main installed 1 command_line (boot windows_environment))))) ∧
  inherited_by_interpreter !! wide "PATH" = windows_environment !! wide "PATH" ∧
  inherited_by_interpreter !! wide "PYTHONPATH"
    = windows_environment !! wide "PYTHONPATH".
Proof.
  assert (H : In inherited_by_interpreter
                (inherited_environments
                   (trace (snd (Win.main installed 1 command_line
                                  (boot windows_environment))))))
    by (vm_compute; left; reflexivity).
  split; [exact H|].
  exact (interpreter_inherits_PATH_unchanged
           installed 1 command_line windows_environment inherited_by_interpreter H).
Defined.

(** C2.  Whichever of the failures the Windows launcher checks for occurs
    (executable path, file name, missing [bin], [bin] not a directory, PATH
    lookup, allocation, missing [python27.dll], Python error), the run ends
    in [exit(1)] and its last call is the one alert it shows.  Nothing is
    tried again: no call of the run is made twice with the same arguments,
    and the calls before the alert are the calls of [main] from its first
    line up to the check that failed, in the order of the source. *)
Theorem setup_failure_alerts_and_exits_1 w argc argv env :
  WinRun.setup_failure w argc argv env →
  let r := Win.main w argc argv (boot env) in
  fst r = Exit 1 ∧
  ∃ text uType,
    last (trace (snd r)) = Some (EvMessageBox text "Error" uType) ∧
    alerts (trace (snd r)) = [EvMessageBox text "Error" uType] ∧
    NoDup (trace (snd r)) ∧
    (steps (trace (snd r)) `prefix_of` Win_script ∨
     steps (trace (snd r)) = Win_script_one_conversion).
Proof.
  intros Hf. exec.
  all: first
    [ by (split; [|eexists _, _; split_and!;
                     [reflexivity | reflexivity | no_call_twice
                     | first [left; by eexists | by right]]])
    | refute Hf ].
Qed.

Lemma setup_failure_alerts_and_exits_1_witness :
  WinRun.setup_failure python_fails 1 command_line windows_environment ∧
  fst (Win.main python_fails 1 command_line (boot windows_environment)) = Exit 1.
Proof.
  assert (H : WinRun.setup_failure python_fails 1 command_line windows_environment).
  { eapply (WinRun.python_error _ _ _ _ (wide "C:\Windows"));
      [vm_compute; reflexivity | vm_compute; reflexivity | reflexivity]. }
  split; [exact H|].
  exact (proj1 (setup_failure_alerts_and_exits_1
                  python_fails 1 command_line windows_environment H)).
Defined.

(** C3, as stated, fails: the exit status is not the launcher's alone.  When
    the application raises [SystemExit(3)] the interpreter ends the process
    with status 3 inside [PyRun_SimpleString], which then neither returns -1
    nor returns at all. *)
Lemma application_exit_status_is_passed_on :
  let r := Win.main application_exits 1 command_line (boot windows_environment) in
  fst r = Exit 3 ∧
  interpreter_answer application_exits 1 command_line (trace (snd r))
    = Some (PyExits 3).
Proof. cbv zeta. split; vm_compute; reflexivity. Qed.

(** C3, amended.  The exit status follows what the interpreter does with the
    command.  When [PyRun_SimpleString] returns, the launcher ends in
    [exit(1)] if it returned -1 and in [exit(0)] otherwise; when the command
    ends the process itself, the status is the one the interpreter passes to
    [exit]; while the command runs, the process does not end.  A run of the
    Windows launcher that gives the interpreter no command ends in
    [exit(1)]; this is stated for the runs in which [WstrToUtf8Str] does not
    throw. *)
Theorem exit_status_follows_interpreter w argc argv env :
  (let r := Osx.main w argc argv (boot env) in
   match w_PyRun_SimpleString w env argc argv (c_str Osx.cmd) with
   | PyReturns res => fst r = if res =? -1 then Exit 1 else Exit 0
   | PyExits status => fst r = Exit status
   | PyRunsOn => fst r = Diverges
   end)
  ∧
  ((∀ pathvar,
      env !! wide "PATH" = Some pathvar →
      WinRun.converted w (Win.wcmd (WinRun.modified_path w pathvar) (WinRun.path w))
        ≠ Throw runtime_error) →
   let r := Win.main w argc argv (boot env) in
   match interpreter_answer w argc argv (trace (snd r)) with
   | None => fst r = Exit 1 ∧ commands (trace (snd r)) = []
   | Some (PyReturns res) => fst r = if res =? -1 then Exit 1 else Exit 0
   | Some (PyExits status) => fst r = Exit status
   | Some PyRunsOn => fst r = Diverges
   end)
  ∧
  (∀ pathvar cmd,
     WinRun.setup_succeeds w env pathvar cmd →
     interpreter_answer w argc argv (trace (snd (Win.main w argc argv (boot env))))
       = Some (WinRun.answer w argc argv env pathvar cmd)).
Proof.
  split; [|split].
  - exec; reflexivity.
  - intros Hconv. exec.
    all: cbn [interpreter_answer inherited_environments commands omap list_omap].
    all: try (by split).
    all: try (match goal with
              | H : w_PyRun_SimpleString _ _ _ _ _ = _ |- _ => rewrite H
              end;
              repeat match goal with
                     | H : (_ =? -1) = _ |- _ => rewrite H
                     end; reflexivity).
    all: exfalso; eapply Hconv; [first [eassumption | reflexivity]|].
    all: rewrite converted_unfold, wcmd_not_empty; unfold_run_values;
      repeat match goal with
             | H : _ = true |- _ => rewrite H
             | H : _ = false |- _ => rewrite H
             end; reflexivity.
  - intros pathvar cmd
      [Hmod Hstrip (st_mode & Hbin & Hdir) Henv Halloc [st_mode' Hdll] Hconv].
    exec.
    all: try refute_success.
    all: same_pathvar; command_of Hconv; reflexivity.
Qed.

Lemma installed_answer :
  interpreter_answer installed 1 command_line
    (trace (snd (Win.main installed 1 command_line (boot windows_environment))))
  = Some (PyReturns 0).
Proof. vm_compute. reflexivity. Defined.

Lemma installed_conversion_returns pathvar :
  windows_environment !! wide "PATH" = Some pathvar →
  WinRun.converted installed
    (Win.wcmd (WinRun.modified_path installed pathvar) (WinRun.path installed))
    ≠ Throw runtime_error.
Proof.
  intros H. vm_compute in H. injection H as <-. vm_compute. discriminate.
Defined.

Lemma exit_status_follows_interpreter_witness :
  (∀ pathvar,
     windows_environment !! wide "PATH" = Some pathvar →
     WinRun.converted installed
       (Win.wcmd (WinRun.modified_path installed pathvar) (WinRun.path installed))
       ≠ Throw runtime_error) ∧
  fst (Win.main installed 1 command_line (boot windows_environment)) = Exit 0.
Proof.
  split; [exact installed_conversion_returns|].
  pose proof (proj1 (proj2 (exit_status_follows_interpreter
                              installed 1 command_line windows_environment))
                installed_conversion_returns) as H.
  cbv zeta in H. rewrite installed_answer in H. exact H.
Defined.




(** C5.  When every setup step succeeds and the startup command runs
    without error, the Windows launcher ends in [exit(0)]. *)
Theorem installed_launcher_exits_0 w argc argv env pathvar cmd res :
  WinRun.setup_succeeds w env pathvar cmd →
  WinRun.answer w argc argv env pathvar cmd = PyReturns res →
  res ≠ -1 →
  fst (Win.main w argc argv (boot env)) = Exit 0.
Proof.
  intros [Hmod Hstrip (st_mode & Hbin & Hdir) Henv Halloc [st_mode' Hdll] Hconv]
    Hanswer Hres.
  exec.
  all: first [ reflexivity | refute_success ].
Qed.

Lemma installed_launcher_exits_0_witness :
  WinRun.setup_succeeds installed windows_environment (wide "C:\Windows") startup_command ∧
  WinRun.answer installed 1 command_line windows_environment (wide "C:\Windows")
    startup_command = PyReturns 0 ∧
  fst (Win.main installed 1 command_line (boot windows_environment)) = Exit 0.
Proof.
  assert (Hpy : WinRun.answer installed 1 command_line windows_environment
                  (wide "C:\Windows") startup_command = PyReturns 0)
    by reflexivity.
  assert (Hres : 0 ≠ -1) by discriminate.
  split; [exact installed_setup_succeeds|]. split; [exact Hpy|].
  exact (installed_launcher_exits_0 installed 1 command_line windows_environment
           _ _ _ installed_setup_succeeds Hpy Hres).
Defined.


(** C6.  The macOS launcher hands the interpreter the command that imports
    [bookmarks] and calls [bookmarks.exec_()].  The Windows launcher pastes
    the value of PATH between the quotes of a raw string literal as it is.
    For a PATH that ends in a backslash the command it hands over reads
    [r'C:\app\bin;C:\Windows\';sys.path.insert(0, r'...]: in a raw string the
    backslash keeps the quote after it from closing the literal, the text
    is not a Python program, and nothing is imported. *)
Theorem path_is_pasted_into_raw_string :
  (∀ w argc argv env,
     commands (trace (snd (Osx.main w argc argv (boot env))))
       = [narrow "import bookmarks; bookmarks.exec_(); exit(0);"])
  ∧ commands (trace (snd (Win.main python_fails 1 command_line
                            (boot environment_with_closing_backslash))))
    = [narrow "import os;import sys;os.environ['PATH'] = r'C:\app\bin;C:\Windows\';sys.path.insert(0, r'C:\app\shared');import bookmarks; bookmarks.exec_();"].
Proof.
  split.
  - intros w argc argv env. exec; reflexivity.
  - vm_compute. reflexivity.
Qed.

(** C7, as stated, fails: a run need not end in one of the two ways.  When
    the application raises [SystemExit(3)] the macOS launcher ends inside
    [PyRun_SimpleString] with status 3: [main] does not run to completion
    ([Py_Finalize] is not reached) and no dialog is shown. *)
Lemma application_exit_ends_run_inside_interpreter :
  let r := Osx.main application_exits 1 macos_command_line (boot macos_environment) in
  fst r = Exit 3 ∧
  last (trace (snd r)) = Some (EvPyRun_SimpleString Osx.cmd) ∧
  alerts (trace (snd r)) = [].
Proof. cbv zeta. split_and!; vm_compute; reflexivity. Qed.

(** C7, amended.  Both [main] functions are straight-line: a run makes the
    calls of the source from the first line on, in order, none of them
    twice.  Every call but [PyRun_SimpleString] is taken to return; the run
    ends when [PyRun_SimpleString] returns or ends the process, and does not
    end while the command runs.  When [PyRun_SimpleString] returns, or is
    not reached because a check failed, the run ends in [exit(0)] without
    alert or in [exit(1)] with the alert as its last call; when the command
    ends the process, the run ends there with the status of the interpreter
    and without alert.  For the Windows launcher this is stated for the
    runs in which [WstrToUtf8Str] does not throw. *)
Theorem launchers_terminate w argc argv env :
  (let r := Osx.main w argc argv (boot env) in
   let t := trace (snd r) in
   NoDup t ∧ steps t `prefix_of` Osx_script ∧
   match w_PyRun_SimpleString w env argc argv (c_str Osx.cmd) with
   | PyReturns res =>
       steps t = Osx_script ∧
       (fst r = Exit 0 ∧ alerts t = [] ∨
        fst r = Exit 1 ∧ ∃ a, alerts t = [a] ∧ last t = Some a)
   | PyExits status =>
       fst r = Exit status ∧ alerts t = [] ∧
       last t = Some (EvPyRun_SimpleString (c_str Osx.cmd))
   | PyRunsOn =>
       fst r = Diverges ∧ last t = Some (EvPyRun_SimpleString (c_str Osx.cmd))
   end)
  ∧
  ((∀ pathvar,
      env !! wide "PATH" = Some pathvar →
      WinRun.converted w (Win.wcmd (WinRun.modified_path w pathvar) (WinRun.path w))
        ≠ Throw runtime_error) →
   let r := Win.main w argc argv (boot env) in
   let t := trace (snd r) in
   NoDup t ∧
   (steps t `prefix_of` Win_script ∨ steps t `prefix_of` Win_script_one_conversion) ∧
   match interpreter_answer w argc argv t with
   | Some (PyExits status) =>
       fst r = Exit status ∧ alerts t = [] ∧
       ∃ command, last t = Some (EvPyRun_SimpleString command)
   | Some PyRunsOn =>
       fst r = Diverges ∧ ∃ command, last t = Some (EvPyRun_SimpleString command)
   | _ =>
       fst r = Exit 0 ∧ alerts t = [] ∨
       fst r = Exit 1 ∧ ∃ a, alerts t = [a] ∧ last t = Some a
   end).
Proof.
  split.
  - cbv zeta. split; [apply osx_no_call_twice|]. exec.
    all: split; [by eexists|].
    all: rewrite_answer.
    all: first
      [ by split_and!
      | by (split; [|left])
      | by (split; [|right; split; [|eexists]]) ].
  - intros Hconv. cbv zeta.
    split; [apply win_no_call_twice|]. split; [apply win_steps_in_source_order|].
    exec.
    all: rewrite_answer.
    all: first
      [ by left
      | by (right; split; [|eexists])
      | by (split_and!; [..|eexists])
      | by (split; [|eexists])
      | idtac ].
    all: exfalso; eapply Hconv; [first [eassumption | reflexivity]|].
    all: rewrite converted_unfold, wcmd_not_empty; unfold_run_values;
      repeat match goal with
             | H : _ = true |- _ => rewrite H
             | H : _ = false |- _ => rewrite H
             end; reflexivity.
Qed.

Lemma launchers_terminate_witness :
  (∀ pathvar,
     windows_environment !! wide "PATH" = Some pathvar →
     WinRun.converted installed
       (Win.wcmd (WinRun.modified_path installed pathvar) (WinRun.path installed))
       ≠ Throw runtime_error) ∧
  NoDup (trace (snd (Win.main installed 1 command_line (boot windows_environment)))).
Proof.
  split; [exact installed_conversion_returns|].
  exact (proj1 (proj2 (launchers_terminate installed 1 command_line windows_environment)
                  installed_conversion_returns)).
Defined.

(** C8.  A failure at one of the six checks before the first [_wputenv_s]
    ends the Windows launcher in [exit(1)] with the environment as it was and
    without any call that writes the environment or belongs to the
    interpreter. *)
Theorem early_failure_leaves_environment_alone w argc argv env :
  WinRun.early_failure w env →
  let r := Win.main w argc argv (boot env) in
  fst r = Exit 1 ∧
  environ (snd r) = env ∧
  List.filter touches_environment_or_interpreter (trace (snd r)) = [].
Proof.
  intros Hf. exec.
  all: try (by split_and!).
  all: refute_early Hf.
Qed.

Lemma early_failure_leaves_environment_alone_witness :
  WinRun.early_failure without_bin windows_environment ∧
  fst (Win.main without_bin 1 command_line (boot windows_environment)) = Exit 1 ∧
  environ (snd (Win.main without_bin 1 command_line (boot windows_environment)))
    = windows_environment.
Proof.
  assert (H : WinRun.early_failure without_bin windows_environment)
    by (apply WinRun.bin_missing; vm_compute; reflexivity).
  pose proof (early_failure_leaves_environment_alone
                without_bin 1 command_line windows_environment H) as (H1 & H2 & _).
  split; [exact H|]. split; [exact H1 | exact H2].
Defined.

(** C9.  Every type index is at least 0 and below [SBK_QtGui_IDX_COUNT],
    every converter index at least 0 and below
    [SBK_QtGui_CONVERTERS_IDX_COUNT]; so a table of that many entries has an
    entry at each of them. *)
Theorem indices_in_bounds :
  Forall (λ d, 0 ≤ snd d < QtGui.SBK_QtGui_IDX_COUNT) QtGui.type_indices
  ∧ Forall (λ d, 0 ≤ snd d < QtGui.SBK_QtGui_CONVERTERS_IDX_COUNT)
      QtGui.converter_indices
  ∧ (∀ (A : Type) (SbkPySide2_QtGuiTypes : list A),
       Z.of_nat (length SbkPySide2_QtGuiTypes) = QtGui.SBK_QtGui_IDX_COUNT →
       Forall (λ d, is_Some (QtGui.lookup SbkPySide2_QtGuiTypes (snd d)))
         QtGui.type_indices)
  ∧ (∀ (A : Type) (SbkPySide2_QtGuiTypeConverters : list A),
       Z.of_nat (length SbkPySide2_QtGuiTypeConverters)
         = QtGui.SBK_QtGui_CONVERTERS_IDX_COUNT →
       Forall (λ d, is_Some (QtGui.lookup SbkPySide2_QtGuiTypeConverters (snd d)))
         QtGui.converter_indices).
Proof.
  assert (Htypes : Forall (λ d, 0 ≤ snd d < QtGui.SBK_QtGui_IDX_COUNT)
                     QtGui.type_indices).
  { apply List.Forall_forall. intros d Hd.
    assert (H : forallb (λ d, (0 <=? snd d) && (snd d <? QtGui.SBK_QtGui_IDX_COUNT))
                  QtGui.type_indices = true) by (vm_compute; reflexivity).
    rewrite forallb_forall in H. specialize (H d Hd). lia. }
  assert (Hconverters :
            Forall (λ d, 0 ≤ snd d < QtGui.SBK_QtGui_CONVERTERS_IDX_COUNT)
              QtGui.converter_indices).
  { apply List.Forall_forall. intros d Hd.
    assert (H : forallb (λ d, (0 <=? snd d)
                                && (snd d <? QtGui.SBK_QtGui_CONVERTERS_IDX_COUNT))
                  QtGui.converter_indices = true) by (vm_compute; reflexivity).
    rewrite forallb_forall in H. specialize (H d Hd). lia. }
  assert (Hlookup : ∀ (A : Type) (table : list A) count i,
            Z.of_nat (length table) = count → 0 ≤ i < count →
            is_Some (QtGui.lookup table i)).
  { intros A table count i Hlen Hi. unfold QtGui.lookup.
    destruct (Z.leb_spec 0 i); [|lia].
    destruct (Z.ltb_spec i (Z.of_nat (length table))); [|lia].
    cbn [andb]. apply lookup_lt_is_Some. lia. }
  split_and!; [exact Htypes | exact Hconverters | |].
  - intros A table Hlen. eapply Forall_impl; [exact Htypes|].
    intros d Hd. by eapply Hlookup.
  - intros A table Hlen. eapply Forall_impl; [exact Hconverters|].
    intros d Hd. by eapply Hlookup.
Qed.

Lemma indices_in_bounds_witness :
  Z.of_nat (length (replicate 295 ())) = QtGui.SBK_QtGui_IDX_COUNT ∧
  Forall (λ d, is_Some (QtGui.lookup (replicate 295 ()) (snd d))) QtGui.type_indices.
Proof.
  assert (H : Z.of_nat (length (replicate 295 ())) = QtGui.SBK_QtGui_IDX_COUNT)
    by reflexivity.
  split; [exact H|].
  exact (proj1 (proj2 (proj2 indices_in_bounds)) _ _ H).
Defined.

(** C10, as stated, fails: conversion stops at the first NUL of the input.
    For the three characters a, NUL, b the API converts "a" successfully and
    [WstrToUtf8Str] returns "a", which is not the encoding of the input. *)
Lemma embedded_nul_truncates :
  WinRun.faithful installed (c_str [97; 0; 98]) ∧
  fst (Win.WstrToUtf8Str installed [97; 0; 98] (boot ∅)) = Ret [97] ∧
  Utf8.encode [97; 0; 98] = [97; 0; 98] ∧
  fst (Win.WstrToUtf8Str installed [97; 0; 98] (boot ∅))
    ≠ Ret (Utf8.encode [97; 0; 98]).
Proof.
  split_and!; [split; vm_compute; reflexivity | vm_compute; reflexivity..
              | vm_compute; discriminate].
Qed.

(** C10, amended.  [WstrToUtf8Str] returns the empty string for the empty
    string, without any call; it throws only for a non-empty input whose
    size query succeeded and whose conversion returned 0; and when the API
    answers as documented it returns the encoding of the input up to its
    first NUL, which for an input without NUL is the encoding of the
    input. *)
Theorem WstrToUtf8Str_behaviour w :
  (∀ p, Win.WstrToUtf8Str w [] p = (Ret [], p))
  ∧ (∀ wstr p e,
       fst (Win.WstrToUtf8Str w wstr p) = Throw e →
       wstr ≠ [] ∧
       0 < fst (w_WideCharToMultiByte w (c_str wstr) 0) ∧
       fst (w_WideCharToMultiByte w (c_str wstr)
              (fst (w_WideCharToMultiByte w (c_str wstr) 0))) = 0)
  ∧ (∀ wstr p,
       wstr ≠ [] → WinRun.faithful w (c_str wstr) →
       fst (Win.WstrToUtf8Str w wstr p) = Ret (Utf8.encode (c_str wstr)))
  ∧ (∀ wstr p,
       wstr ≠ [] → nul_free wstr = true → WinRun.faithful w wstr →
       fst (Win.WstrToUtf8Str w wstr p) = Ret (Utf8.encode wstr)).
Proof.
  split; [|split; [|split]].
  - reflexivity.
  - intros wstr p e. rewrite WstrToUtf8Str_result, converted_unfold.
    destruct wstr as [|c rest]; [discriminate|]. cbn [Win.empty].
    destruct (Z.ltb_spec 0 (fst (w_WideCharToMultiByte w (c_str (c :: rest)) 0)))
      as [Hpos|]; [|discriminate].
    rewrite len_replicate by lia.
    destruct (Z.eqb_spec
      (fst (w_WideCharToMultiByte w (c_str (c :: rest))
              (fst (w_WideCharToMultiByte w (c_str (c :: rest)) 0)))) 0);
      [|discriminate].
    by intros _.
  - intros wstr p Hne Hfaithful. rewrite WstrToUtf8Str_result.
    apply converted_faithful; [by destruct wstr | exact Hfaithful].
  - intros wstr p Hne Hnul Hfaithful. rewrite WstrToUtf8Str_result.
    rewrite <- (c_str_nul_free wstr Hnul) at 2.
    apply converted_faithful; [by destruct wstr | by rewrite c_str_nul_free].
Qed.

Lemma WstrToUtf8Str_behaviour_witness :
  wide "bookmarks" ≠ [] ∧
  nul_free (wide "bookmarks") = true ∧
  WinRun.faithful installed (wide "bookmarks") ∧
  fst (Win.WstrToUtf8Str installed (wide "bookmarks") (boot ∅))
    = Ret (narrow "bookmarks").
Proof.
  assert (Hne : wide "bookmarks" ≠ []) by discriminate.
  assert (Hnul : nul_free (wide "bookmarks") = true) by reflexivity.
  assert (Hf : WinRun.faithful installed (wide "bookmarks"))
    by (split; vm_compute; reflexivity).
  split_and!; [exact Hne | exact Hnul | exact Hf |].
  exact (proj2 (proj2 (proj2 (WstrToUtf8Str_behaviour installed)))
           (wide "bookmarks") (boot ∅) Hne Hnul Hf).
Defined.

(** * Further properties of the launchers and of the header *)

(** X1.  Up to the interpreter call, the Windows launcher changes no
    environment variable other than the two it writes: a variable whose name
    is neither of the two names passed to [_wputenv_s] has, in the
    environment the interpreter inherits and at the end of a run that gave
    the interpreter no command, the value it had at the start. *)
Theorem other_variables_untouched w argc argv env k :
  k ≠ c_str (WinRun.pythonpath w) →
  (∀ pathvar, env !! wide "PATH" = Some pathvar →
              k ≠ c_str (WinRun.modified_path w pathvar)) →
  let r := Win.main w argc argv (boot env) in
  (∀ inherited, In inherited (inherited_environments (trace (snd r))) →
                inherited !! k = env !! k) ∧
  (commands (trace (snd r)) = [] → environ (snd r) !! k = env !! k).
Proof.
  intros Hpy Hmp. exec.
  all: cbn [inherited_environments commands omap list_omap In].
  all: split; [intros inherited Hin; try contradiction; destruct Hin as [<-|[]]
              | intros Hnone; try discriminate Hnone ].
  all: try reflexivity.
  all: rewrite !put_variable_value by reflexivity.
  all: rewrite !lookup_insert_ne
         by (apply not_eq_sym; first [apply (Hmp _ eq_refl) | exact Hpy]).
  all: reflexivity.
Qed.

(** X2.  The Windows launcher starts the interpreter only after every check
    passed: the executable path resolved and was stripped, [bin] is a
    directory, PATH was read, the allocation succeeded and [python27.dll]
    exists. *)
Theorem interpreter_starts_only_when_installed w argc argv env :
  inherited_environments (trace (snd (Win.main w argc argv (boot env)))) ≠ [] →
  fst (w_GetModuleFileNameW w MAX_PATH) ≠ 0 ∧
  fst (w_PathRemoveFileSpecW w (snd (w_GetModuleFileNameW w MAX_PATH))) ≠ 0 ∧
  (∃ st_mode, w_wstat w (c_str (WinRun.bin_dir w)) = Some st_mode ∧
              Z.land st_mode S_IFDIR ≠ 0) ∧
  (∃ pathvar, env !! wide "PATH" = Some pathvar ∧
              w_malloc w ((len pathvar + 1) * 2) = true) ∧
  is_Some (w_wstat w (c_str (WinRun.pydll w))).
Proof.
  exec.
  all: intros Hstarted; try (by destruct Hstarted).
  all: unfold_run_values; tidy; split_and!; eauto.
Qed.

(** X3.  The launchers finalize the interpreter exactly when
    [PyRun_SimpleString] returns.  The macOS launcher initializes it once
    and calls [Py_Finalize] once if the call returns and not at all if the
    command ends the process or runs on.  The Windows launcher, on a run
    that gave the interpreter a command, does the same; a run that stops at
    a check has initialized nothing, and the run that ends through the
    exception of [WstrToUtf8Str] has initialized the interpreter and never
    finalizes it. *)
Theorem interpreter_finalized_on_return w argc argv env :
  (let t := trace (snd (Osx.main w argc argv (boot env))) in
   calls "Py_Initialize" t = 1%nat ∧
   calls "Py_Finalize" t =
     match w_PyRun_SimpleString w env argc argv (c_str Osx.cmd) with
     | PyReturns _ => 1%nat
     | _ => 0%nat
     end)
  ∧
  (let r := Win.main w argc argv (boot env) in
   let t := trace (snd r) in
   match interpreter_answer w argc argv t with
   | Some (PyReturns _) =>
       calls "Py_Initialize" t = 1%nat ∧ calls "Py_Finalize" t = 1%nat
   | Some _ =>
       calls "Py_Initialize" t = 1%nat ∧ calls "Py_Finalize" t = 0%nat
   | None =>
       calls "Py_Finalize" t = 0%nat ∧
       (fst r = Exit 1 ∧ calls "Py_Initialize" t = 0%nat ∨
        fst r = Throw runtime_error ∧ calls "Py_Initialize" t = 1%nat)
   end).
Proof.
  split.
  - exec; rewrite_answer; by split.
  - exec; rewrite_answer.
    all: first [ by split | by (split; [|left]) | by (split; [|right]) ].
Qed.

(** X4.  The launchers never look at the command line themselves: for any
    two command lines the environment the interpreter inherits and the
    command it is given are the same, and so are the exit status and the
    alerts whenever the interpreter does the same with the command under
    both; an interpreter that is started is given [argv[0]] as program name
    and [argc], [argv] unchanged. *)
Theorem arguments_only_forwarded w argc argv argc' argv' env :
  (let r := Win.main w argc argv (boot env) in
   let r' := Win.main w argc' argv' (boot env) in
   inherited_environments (trace (snd r)) = inherited_environments (trace (snd r')) ∧
   commands (trace (snd r)) = commands (trace (snd r')) ∧
   (interpreter_answer w argc argv (trace (snd r))
      = interpreter_answer w argc' argv' (trace (snd r')) →
    fst r = fst r' ∧ alerts (trace (snd r)) = alerts (trace (snd r'))) ∧
   (inherited_environments (trace (snd r)) ≠ [] →
    In (EvPy_SetProgramName (nth 0 argv [])) (trace (snd r)) ∧
    In (EvPySys_SetArgv argc argv) (trace (snd r))))
  ∧
  (let r := Osx.main w argc argv (boot env) in
   let r' := Osx.main w argc' argv' (boot env) in
   inherited_environments (trace (snd r)) = inherited_environments (trace (snd r')) ∧
   commands (trace (snd r)) = commands (trace (snd r')) ∧
   (w_PyRun_SimpleString w env argc argv (c_str Osx.cmd)
      = w_PyRun_SimpleString w env argc' argv' (c_str Osx.cmd) →
    fst r = fst r' ∧ alerts (trace (snd r)) = alerts (trace (snd r'))) ∧
   In (EvPy_SetProgramName (nth 0 argv [])) (trace (snd r)) ∧
   In (EvPySys_SetArgv argc argv) (trace (snd r))).
Proof.
  split.
  - exec; exec.
    all: rewrite_answer.
    all: split_and!; try reflexivity.
    all: try (intros Hstarted; try (by destruct Hstarted); split; cbn; tauto).
    all: intros Hsame; tidy;
      first [ by split | split; [congruence | reflexivity] | exfalso; congruence ].
  - exec; exec.
    all: rewrite_answer.
    all: split_and!; try reflexivity; try (cbn; tauto).
    all: intros Hsame; tidy;
      first [ by split | split; [congruence | reflexivity] | exfalso; congruence ].
Qed.

(** X5.  The macOS launcher leaves the environment as it found it, the
    interpreter inherits exactly that environment, and the only calls made
    are interpreter calls and the alert. *)
Theorem osx_launcher_leaves_environment w argc argv env :
  let r := Osx.main w argc argv (boot env) in
  environ (snd r) = env ∧
  inherited_environments (trace (snd r)) = [env] ∧
  List.filter (λ e, negb (touches_environment_or_interpreter e || is_alert e))
    (trace (snd r)) = [].
Proof. exec; by split_and!. Qed.

Lemma length_c_str l : (length (c_str l) ≤ length l)%nat.
Proof.
  induction l as [|c rest IH]; [reflexivity|].
  cbn [c_str]. destruct (c =? 0); cbn [length]; lia.
Qed.

Lemma length_store written buffer : length (store written buffer) = length buffer.
Proof.
  unfold store. rewrite length_app, length_take, length_drop. lia.
Qed.

(** X6.  [WstrToUtf8Str] changes nothing of the process but the log of
    calls, to which it adds at most two calls, both of
    [WideCharToMultiByte]; the string it returns holds no NUL and is no
    longer than the size the size query returned. *)
Theorem WstrToUtf8Str_result_fits w wstr p :
  let r := Win.WstrToUtf8Str w wstr p in
  environ (snd r) = environ p ∧
  info_st_mode (snd r) = info_st_mode p ∧
  (∃ new, trace (snd r) = trace p ++ new ∧ (length new ≤ 2)%nat ∧
          Forall (λ e, callee e = "WideCharToMultiByte") new) ∧
  (∀ cmd, fst r = Ret cmd →
          nul_free cmd = true ∧
          len cmd ≤ Z.max 0 (fst (w_WideCharToMultiByte w (c_str wstr) 0))).
Proof.
  cbv zeta.
  unfold Win.WstrToUtf8Str, WideCharToMultiByte, call, throw, mbind, mret,
    Run_bind, Run_ret.
  destruct (Win.empty wstr); cbn [negb fst snd environ info_st_mode trace].
  { split_and!; try reflexivity.
    - exists []. rewrite app_nil_r. split_and!; [reflexivity | cbn; lia | constructor].
    - intros cmd [= <-]. split; [reflexivity | unfold len; cbn [length]; lia]. }
  destruct (Z.ltb_spec 0 (fst (w_WideCharToMultiByte w (c_str wstr) 0))) as [Hpos|Hneg];
    cbn [fst snd environ info_st_mode trace].
  2: { split_and!; try reflexivity.
       - eexists [_]. split_and!; [reflexivity | cbn; lia | by repeat constructor].
       - intros cmd [= <-]. split; [reflexivity | unfold len; cbn [length]; lia]. }
  destruct (negb _); cbn [fst snd environ info_st_mode trace].
  all: split_and!; try reflexivity.
  all: try (eexists [_; _]; rewrite <- app_assoc;
            split_and!; [reflexivity | cbn; lia | by repeat constructor]).
  - intros cmd [= <-]. split; [apply nul_free_c_str|].
    match goal with
    | |- context [c_str (store ?a ?b)] =>
        pose proof (length_c_str (store a b)) as Hlen
    end.
    rewrite length_store, length_replicate in Hlen. unfold len in *. lia.
  - discriminate.
Qed.

(** After the checks, the outcome follows from the conversion and from
    [PyRun_SimpleString]. *)
Lemma outcome_after_checks w argc argv env pathvar :
  WinChecks.checks_pass w env pathvar →
  is_Some (w_wstat w (c_str (WinRun.pydll w))) →
  let r := Win.main w argc argv (boot env) in
  match WinRun.converted w (Win.wcmd (WinRun.modified_path w pathvar) (WinRun.path w)) with
  | Ret cmd =>
      commands (trace (snd r)) = [c_str cmd] ∧
      fst r = match WinRun.answer w argc argv env pathvar cmd with
              | PyReturns res => if res =? -1 then Exit 1 else Exit 0
              | PyExits status => Exit status
              | PyRunsOn => Diverges
              end
  | Throw e => commands (trace (snd r)) = [] ∧ fst r = Throw e
  | Exit _ | Diverges => False
  end.
Proof.
  intros [Hmod Hstrip (st_mode & Hbin & Hdir) Henv Halloc] [st_mode' Hdll].
  rewrite converted_unfold, wcmd_not_empty. exec.
  all: try (exfalso; unfold_run_values; same_pathvar; tidy; absurd_facts).
  all: same_pathvar; unfold_run_values;
    repeat match goal with
           | H : _ = true |- _ => rewrite H
           | H : _ = false |- _ => rewrite H
           | H : w_PyRun_SimpleString _ _ _ _ _ = _ |- _ => rewrite H
           end; by split.
Qed.

(** X7.  When the first five checks pass and [python27.dll] is missing, the
    Windows launcher shows the alert about [python27.dll] with the error
    icon and ends in [exit(1)] after its first [_wputenv_s] call and before
    any interpreter call: the failure comes after one environment write. *)
Theorem missing_dll_leaves_first_write w argc argv env pathvar :
  WinChecks.checks_pass w env pathvar →
  w_wstat w (c_str (WinRun.pydll w)) = None →
  let r := Win.main w argc argv (boot env) in
  fst r = Exit 1 ∧
  alerts (trace (snd r))
    = [EvMessageBox "Could not start the application:
The 'python27.dll' seems to be missing." "Error" 0x10] ∧
  environ (snd r) = <[c_str (WinRun.modified_path w pathvar) := wide "PATH"]> env ∧
  calls "_wputenv_s" (trace (snd r)) = 1%nat ∧
  inherited_environments (trace (snd r)) = [].
Proof.
  intros [Hmod Hstrip (st_mode & Hbin & Hdir) Henv Halloc] Hdll.
  exec.
  all: try (exfalso; unfold_run_values; same_pathvar; tidy; absurd_facts).
  same_pathvar. by split_and!.
Qed.

(** X8.  When the size query of the conversion fails (returns 0 or less),
    [WstrToUtf8Str] returns the empty string without throwing, and the
    Windows launcher hands the empty command to the interpreter; the exit
    status and the alert then follow from what [PyRun_SimpleString] does
    with the empty command. *)
Theorem failed_size_query_runs_empty_command w argc argv env pathvar :
  WinChecks.checks_pass w env pathvar →
  is_Some (w_wstat w (c_str (WinRun.pydll w))) →
  fst (w_WideCharToMultiByte w
         (c_str (Win.wcmd (WinRun.modified_path w pathvar) (WinRun.path w))) 0) ≤ 0 →
  let r := Win.main w argc argv (boot env) in
  commands (trace (snd r)) = [[]] ∧
  match w_PyRun_SimpleString w (WinRun.environment_written w env pathvar)
          argc argv [] with
  | PyReturns res =>
      alerts (trace (snd r)) =
        (if res =? -1
         then [EvMessageBox "Could not start the application.
An internal Python error occured." "Error" MB_OK]
         else []) ∧
      fst r = if res =? -1 then Exit 1 else Exit 0
  | PyExits status => alerts (trace (snd r)) = [] ∧ fst r = Exit status
  | PyRunsOn => alerts (trace (snd r)) = [] ∧ fst r = Diverges
  end.
Proof.
  intros [Hmod Hstrip (st_mode & Hbin & Hdir) Henv Halloc] [st_mode' Hdll] Hsize.
  exec.
  all: try (exfalso; unfold_run_values; same_pathvar; tidy; absurd_facts).
  all: same_pathvar; unfold_run_values; cbn [c_str] in *;
    repeat match goal with
           | H : _ = true |- _ => rewrite H
           | H : _ = false |- _ => rewrite H
           | H : w_PyRun_SimpleString _ _ _ _ _ = _ |- _ => rewrite H
           end; by split_and!.
Qed.

Lemma encode_cons_plain u rest :
  Utf8.is_high_surrogate u = false → Utf8.is_low_surrogate u = false →
  Utf8.encode (u :: rest) = Utf8.encode_code_point u ++ Utf8.encode rest.
Proof.
  intros Hh Hl. destruct rest as [|lo rest].
  - rewrite encode_one, Hh, Hl. reflexivity.
  - rewrite encode_two, Hh, Hl. reflexivity.
Qed.

Lemma encode_ascii s : ascii_only s = true → Utf8.encode s = s.
Proof.
  induction s as [|c rest IH]; [reflexivity|].
  cbn [ascii_only forallb]. intros H.
  apply andb_true_iff in H as [Hc Hrest].
  apply andb_true_iff in Hc as [Hc0 Hc1].
  apply Z.ltb_lt in Hc0, Hc1.
  rewrite encode_cons_plain.
  - unfold Utf8.encode_code_point.
    destruct (Z.ltb_spec c 128); [|lia]. cbn [app]. now rewrite IH.
  - unfold Utf8.is_high_surrogate. lia.
  - unfold Utf8.is_low_surrogate. lia.
Qed.

Lemma ascii_only_app a b : ascii_only (a ++ b) = ascii_only a && ascii_only b.
Proof. apply forallb_app. Qed.

(** X9.  When the checks pass, the conversion answers as documented and the
    directory of the executable and PATH hold ASCII characters only, the
    command that reaches the interpreter is [wcmd], character for
    character. *)
Theorem ascii_command_reaches_interpreter w argc argv env pathvar :
  WinChecks.checks_pass w env pathvar →
  is_Some (w_wstat w (c_str (WinRun.pydll w))) →
  WinRun.faithful w (Win.wcmd (WinRun.modified_path w pathvar) (WinRun.path w)) →
  ascii_only (c_str (WinRun.path w)) = true →
  ascii_only (c_str pathvar) = true →
  commands (trace (snd (Win.main w argc argv (boot env))))
    = [Win.wcmd (WinRun.modified_path w pathvar) (WinRun.path w)].
Proof.
  intros Hchecks Hdll Hfaithful Hpath Hvar.
  pose proof (outcome_after_checks w argc argv env pathvar Hchecks Hdll) as Hout.
  cbv zeta in Hout.
  pose proof (wcmd_nul_free w pathvar) as Hnul.
  rewrite converted_faithful in Hout;
    [|apply wcmd_not_empty|by rewrite c_str_nul_free].
  destruct Hout as [-> _].
  rewrite (c_str_nul_free _ Hnul).
  assert (Hascii : ascii_only
            (Win.wcmd (WinRun.modified_path w pathvar) (WinRun.path w)) = true).
  { unfold Win.wcmd, WinRun.modified_path, WinRun.bin_dir.
    rewrite !ascii_only_app, Hpath, Hvar. reflexivity. }
  rewrite (encode_ascii _ Hascii).
  now rewrite (c_str_nul_free _ Hnul).
Qed.

(** X10.  Every alert of the Windows launcher is titled "Error" and its
    text names what failed: the condition that [WinChecks.diagnosis] gives
    for the text holds of the run. *)
Theorem alert_names_the_failed_check w argc argv env lpText lpCaption uType :
  In (EvMessageBox lpText lpCaption uType)
     (trace (snd (Win.main w argc argv (boot env)))) →
  lpCaption = "Error" ∧ WinChecks.diagnosis w argc argv env lpText.
Proof.
  exec.
  all: cbn [In]; intros Hin;
    repeat (destruct Hin as [Hin|Hin]; [try discriminate Hin|]);
    try contradiction.
  all: injection Hin as <- <- <-; split; [reflexivity|].
  all: unfold WinChecks.diagnosis; cbn [String.eqb Ascii.eqb Bool.eqb];
    unfold_run_values.
  all: try (eexists _, _; split; [eassumption|];
            rewrite converted_unfold, wcmd_not_empty; unfold_run_values;
            repeat match goal with
                   | H : _ = true |- _ => rewrite H
                   | H : _ = false |- _ => rewrite H
                   end;
            split; [reflexivity|]; tidy; congruence).
  all: tidy; try assumption.
  all: try (eexists; split; eassumption).
  all: exfalso; absurd_facts.
Qed.

Lemma SbkType_index_specialized T i :
  Shiboken.SbkType_index T = Some i →
  In T (fst <$> Shiboken.SbkType_specializations) ∧ In (T, Some i) Shiboken.slots.
Proof.
  intros Hi. pose proof Hi as Hi'. unfold Shiboken.SbkType_index in Hi'.
  destruct (List.find _ _) as [s|] eqn:Hfind; [|discriminate].
  pose proof (List.find_some _ _ Hfind) as [Hin Heq].
  apply String.eqb_eq in Heq. split.
  - rewrite <- Heq. apply (in_map fst). exact Hin.
  - unfold Shiboken.slots. apply in_map_iff. exists s.
    split; [|exact Hin]. rewrite Heq. now f_equal.
Qed.

Lemma slot_of_specialization a :
  In a Shiboken.slots → snd a = Shiboken.SbkType_index (fst a).
Proof.
  unfold Shiboken.slots. intros Hin. apply in_map_iff in Hin as (s & <- & _).
  reflexivity.
Qed.

(** X11.  Over a table of [SBK_QtGui_IDX_COUNT] entries, [SbkType< T >()]
    reads an entry of the table exactly for the types [T] the header
    specializes it for. *)
Theorem SbkType_reads_inside_table (A : Type) (SbkPySide2_QtGuiTypes : list A) T :
  Z.of_nat (length SbkPySide2_QtGuiTypes) = QtGui.SBK_QtGui_IDX_COUNT →
  is_Some (Shiboken.SbkType SbkPySide2_QtGuiTypes T)
  ↔ In T (fst <$> Shiboken.SbkType_specializations).
Proof.
  intros Hlen. split.
  - unfold Shiboken.SbkType. intros [x Hx].
    destruct (Shiboken.SbkType_index T) as [i|] eqn:Hi; [|discriminate].
    apply (SbkType_index_specialized T i Hi).
  - intros Hin.
    assert (Hcheck : forallb (λ a, match snd a with
                                   | Some i => (0 <=? i) && (i <? QtGui.SBK_QtGui_IDX_COUNT)
                                   | None => false
                                   end) Shiboken.slots = true)
      by (vm_compute; reflexivity).
    rewrite forallb_forall in Hcheck.
    apply in_map_iff in Hin as (s & <- & Hs).
    assert (Hslot : In (fst s, Shiboken.SbkType_index (fst s)) Shiboken.slots)
      by exact (in_map (λ s, (fst s, Shiboken.SbkType_index (fst s))) _ _ Hs).
    specialize (Hcheck _ Hslot). cbn [snd] in Hcheck.
    unfold Shiboken.SbkType.
    destruct (Shiboken.SbkType_index (fst s)) as [i|]; [|discriminate].
    unfold QtGui.lookup. rewrite Hlen, Hcheck.
    apply andb_true_iff in Hcheck as [H0 H1].
    apply lookup_lt_is_Some. lia.
Qed.

(** X12.  Two specializations of [SbkType] never read the same slot, and
    every slot below [SBK_QtGui_IDX_COUNT] is read by one of them. *)
Theorem SbkType_slots_bijective :
  (∀ T1 T2 i, Shiboken.SbkType_index T1 = Some i →
              Shiboken.SbkType_index T2 = Some i → T1 = T2)
  ∧ (∀ i, 0 ≤ i < QtGui.SBK_QtGui_IDX_COUNT →
          ∃ T, Shiboken.SbkType_index T = Some i).
Proof.
  split.
  - intros T1 T2 i H1 H2.
    assert (Hcheck :
      forallb (λ a, forallb (λ b,
        implb match snd a, snd b with
              | Some i, Some j => i =? j
              | _, _ => false
              end (String.eqb (fst a) (fst b))) Shiboken.slots) Shiboken.slots = true)
      by (vm_compute; reflexivity).
    rewrite forallb_forall in Hcheck.
    specialize (Hcheck _ (proj2 (SbkType_index_specialized T1 i H1))).
    rewrite forallb_forall in Hcheck.
    specialize (Hcheck _ (proj2 (SbkType_index_specialized T2 i H2))).
    cbn [fst snd] in Hcheck. rewrite Z.eqb_refl in Hcheck.
    now apply String.eqb_eq.
  - intros i Hi.
    assert (Hcheck :
      forallb (λ n, existsb (λ a, match snd a with
                                  | Some j => j =? Z.of_nat n
                                  | None => false
                                  end) Shiboken.slots) (seq 0 295) = true)
      by (vm_compute; reflexivity).
    rewrite forallb_forall in Hcheck.
    specialize (Hcheck (Z.to_nat i)).
    rewrite Z2Nat.id in Hcheck by lia.
    assert (Hin : In (Z.to_nat i) (seq 0 295)).
    { apply in_seq. unfold QtGui.SBK_QtGui_IDX_COUNT in Hi. lia. }
    apply Hcheck in Hin. apply existsb_exists in Hin as (a & Ha & Hj).
    exists (fst a). rewrite <- (slot_of_specialization a Ha).
    destruct (snd a) as [j|]; [|discriminate].
    apply Z.eqb_eq in Hj. now subst.
Qed.

(** X13.  No macro name is defined twice in the two index blocks; the
    converter indices count up from 0 in the order of the header; two type
    macros share a value only at 179 and 180; and every type macro is used
    by a specialization of [SbkType] except the two [QVector] aliases of
    those slots. *)
Theorem index_numbering :
  NoDup (fst <$> (QtGui.type_indices ++ QtGui.converter_indices))
  ∧ snd <$> QtGui.converter_indices = Z.of_nat <$> seq 0 46
  ∧ (∀ n1 n2 v, In (n1, v) QtGui.type_indices → In (n2, v) QtGui.type_indices →
                n1 = n2 ∨ v = 179 ∨ v = 180)
  ∧ (∀ n v, In (n, v) QtGui.type_indices →
            In n (snd <$> Shiboken.SbkType_specializations) ∨
            (n = "SBK_QVECTOR_QPOINT_IDX" ∧ v = 179) ∨
            (n = "SBK_QVECTOR_QPOINTF_IDX" ∧ v = 180)).
Proof.
  split_and!.
  - refine (bool_decide_unpack _ _). by vm_compute.
  - vm_compute. reflexivity.
  - intros n1 n2 v H1 H2.
    assert (Hcheck :
      forallb (λ a, forallb (λ b,
        implb (snd a =? snd b)
          (String.eqb (fst a) (fst b) || (snd a =? 179) || (snd a =? 180)))
        QtGui.type_indices) QtGui.type_indices = true)
      by (vm_compute; reflexivity).
    rewrite forallb_forall in Hcheck. specialize (Hcheck _ H1).
    rewrite forallb_forall in Hcheck. specialize (Hcheck _ H2).
    cbn [fst snd] in Hcheck. rewrite Z.eqb_refl in Hcheck. cbn [implb] in Hcheck.
    apply orb_true_iff in Hcheck as [Hcheck|Hcheck];
      [apply orb_true_iff in Hcheck as [Hcheck|Hcheck]|].
    + left. now apply String.eqb_eq.
    + right. left. now apply Z.eqb_eq.
    + right. right. now apply Z.eqb_eq.
  - intros n v Hin.
    assert (Hcheck :
      forallb (λ a,
        existsb (String.eqb (fst a)) (snd <$> Shiboken.SbkType_specializations)
        || (String.eqb (fst a) "SBK_QVECTOR_QPOINT_IDX" && (snd a =? 179))
        || (String.eqb (fst a) "SBK_QVECTOR_QPOINTF_IDX" && (snd a =? 180)))
        QtGui.type_indices = true)
      by (vm_compute; reflexivity).
    rewrite forallb_forall in Hcheck. specialize (Hcheck _ Hin).
    cbn [fst snd] in Hcheck.
    apply orb_true_iff in Hcheck as [Hcheck|Hcheck];
      [apply orb_true_iff in Hcheck as [Hcheck|Hcheck]|].
    + left. apply existsb_exists in Hcheck as (m & Hm & Heq).
      apply String.eqb_eq in Heq. now subst.
    + right. left. apply andb_true_iff in Hcheck as [Hn Hv].
      apply String.eqb_eq in Hn. apply Z.eqb_eq in Hv. by split.
    + right. right. apply andb_true_iff in Hcheck as [Hn Hv].
      apply String.eqb_eq in Hn. apply Z.eqb_eq in Hv. by split.
Qed.

Ltac concrete_checks :=
  constructor;
  [ vm_compute; discriminate
  | vm_compute; discriminate
  | eexists; split; [vm_compute; reflexivity | vm_compute; discriminate]
  | vm_compute; reflexivity
  | reflexivity ].

Lemma installed_checks_pass :
  WinChecks.checks_pass installed windows_environment (wide "C:\Windows").
Proof. concrete_checks. Defined.

Lemma without_dll_checks_pass :
  WinChecks.checks_pass without_dll windows_environment (wide "C:\Windows").
Proof. concrete_checks. Defined.

Lemma size_query_fails_checks_pass :
  WinChecks.checks_pass size_query_fails windows_environment (wide "C:\Windows").
Proof. concrete_checks. Defined.

Lemma installed_dll_present :
  is_Some (w_wstat installed (c_str (WinRun.pydll installed))).
Proof. eexists. vm_compute. reflexivity. Defined.

Lemma other_variables_untouched_witness :
  wide "PATH" ≠ c_str (WinRun.pythonpath installed) ∧
  In inherited_by_interpreter
    (inherited_environments
       (trace (snd (Win.main installed 1 command_line (boot windows_environment))))) ∧
  inherited_by_interpreter !! wide "PATH" = windows_environment !! wide "PATH".
Proof.
  assert (H1 : wide "PATH" ≠ c_str (WinRun.pythonpath installed))
    by (vm_compute; discriminate).
  assert (H2 : ∀ pathvar, windows_environment !! wide "PATH" = Some pathvar →
                 wide "PATH" ≠ c_str (WinRun.modified_path installed pathvar)).
  { intros pathvar H. vm_compute in H. injection H as <-. vm_compute. discriminate. }
  assert (Hin : In inherited_by_interpreter
                  (inherited_environments
                     (trace (snd (Win.main installed 1 command_line
                                    (boot windows_environment))))))
    by (vm_compute; left; reflexivity).
  split; [exact H1|]. split; [exact Hin|].
  exact (proj1 (other_variables_untouched installed 1 command_line windows_environment
                  (wide "PATH") H1 H2) _ Hin).
Defined.

Lemma interpreter_starts_only_when_installed_witness :
  inherited_environments
    (trace (snd (Win.main installed 1 command_line (boot windows_environment)))) ≠ [] ∧
  is_Some (w_wstat installed (c_str (WinRun.pydll installed))).
Proof.
  assert (H : inherited_environments
                (trace (snd (Win.main installed 1 command_line
                               (boot windows_environment)))) ≠ [])
    by (vm_compute; discriminate).
  split; [exact H|].
  exact (proj2 (proj2 (proj2 (proj2
           (interpreter_starts_only_when_installed
              installed 1 command_line windows_environment H))))).
Defined.

Lemma missing_dll_leaves_first_write_witness :
  WinChecks.checks_pass without_dll windows_environment (wide "C:\Windows") ∧
  w_wstat without_dll (c_str (WinRun.pydll without_dll)) = None ∧
  fst (Win.main without_dll 1 command_line (boot windows_environment)) = Exit 1.
Proof.
  assert (H : w_wstat without_dll (c_str (WinRun.pydll without_dll)) = None)
    by (vm_compute; reflexivity).
  split; [exact without_dll_checks_pass|]. split; [exact H|].
  exact (proj1 (missing_dll_leaves_first_write
                  without_dll 1 command_line windows_environment _
                  without_dll_checks_pass H)).
Defined.

Lemma failed_size_query_runs_empty_command_witness :
  WinChecks.checks_pass size_query_fails windows_environment (wide "C:\Windows") ∧
  commands (trace (snd (Win.main size_query_fails 1 command_line
                          (boot windows_environment)))) = [[]].
Proof.
  split; [exact size_query_fails_checks_pass|].
  refine (proj1 (failed_size_query_runs_empty_command
                   size_query_fails 1 command_line windows_environment _
                   size_query_fails_checks_pass installed_dll_present _)).
  vm_compute. discriminate.
Defined.

Lemma ascii_command_reaches_interpreter_witness :
  ascii_only (c_str (WinRun.path installed)) = true ∧
  ascii_only (c_str (wide "C:\Windows")) = true ∧
  commands (trace (snd (Win.main installed 1 command_line (boot windows_environment))))
    = [Win.wcmd (WinRun.modified_path installed (wide "C:\Windows"))
         (WinRun.path installed)].
Proof.
  assert (H1 : ascii_only (c_str (WinRun.path installed)) = true)
    by (vm_compute; reflexivity).
  assert (H2 : ascii_only (c_str (wide "C:\Windows")) = true)
    by (vm_compute; reflexivity).
  split; [exact H1|]. split; [exact H2|].
  exact (ascii_command_reaches_interpreter
           installed 1 command_line windows_environment _
           installed_checks_pass installed_dll_present
           installed_conversion_faithful H1 H2).
Defined.

Lemma alert_names_the_failed_check_witness :
  In (EvMessageBox "Could not start the application:
The 'bin' directory seems to be missing." "Error" 0x10)
     (trace (snd (Win.main without_bin 1 command_line (boot windows_environment)))) ∧
  w_wstat without_bin (c_str (WinRun.bin_dir without_bin)) = None.
Proof.
  assert (H : In (EvMessageBox "Could not start the application:
The 'bin' directory seems to be missing." "Error" 0x10)
                (trace (snd (Win.main without_bin 1 command_line
                               (boot windows_environment)))))
    by (vm_compute; tauto).
  split; [exact H|].
  exact (proj2 (alert_names_the_failed_check
                  without_bin 1 command_line windows_environment _ _ _ H)).
Defined.

Lemma In_by_eqb (x : string) (l : list string) :
  In x l ↔ existsb (String.eqb x) l = true.
Proof.
  rewrite existsb_exists. split.
  - intros H. exists x. split; [exact H | apply String.eqb_refl].
  - intros (y & Hy & Heq). apply String.eqb_eq in Heq. now subst.
Defined.

Lemma SbkType_reads_inside_table_witness :
  Z.of_nat (length (replicate 295 ())) = QtGui.SBK_QtGui_IDX_COUNT ∧
  is_Some (Shiboken.SbkType (replicate 295 ()) "::QTextDocument") ∧
  ¬ is_Some (Shiboken.SbkType (replicate 295 ()) "::QWidget").
Proof.
  assert (H : Z.of_nat (length (replicate 295 ())) = QtGui.SBK_QtGui_IDX_COUNT)
    by reflexivity.
  split; [exact H|]. split.
  - apply (proj2 (SbkType_reads_inside_table unit _ "::QTextDocument" H)).
    apply In_by_eqb. vm_compute. reflexivity.
  - intros Hsome.
    apply (proj1 (SbkType_reads_inside_table unit _ "::QWidget" H)) in Hsome.
    apply In_by_eqb in Hsome. vm_compute in Hsome. discriminate Hsome.
Defined.
